(** * Bioslurry reactor simulator: the simulation engine and the metrics extractor

    A shallow embedding of [runSimulation] and [calculateMetrics]
    (src/vite.config.js, lines 269-353) and the properties of the
    specification that concern them.

    JavaScript numbers are IEEE 754 binary64 values with round-to-nearest-even
    arithmetic; they are modelled by Rocq's primitive floats, which have the
    same format and the same rounding.  A decimal literal denotes the nearest
    binary64 value, in JavaScript as in Rocq. *)

From Stdlib Require Import Floats ZArith List Bool Lia.
From Stdlib Require String Ascii.
Import ListNotations.

Set Warnings "-inexact-float".
Local Open Scope float_scope.

(** ** JavaScript primitives *)

Module JS.

(** [+0] and [-0] are told apart by [Math.max] and [Math.min]. *)
Definition is_pos_zero (x : float) : bool :=
  match classify x with PZero => true | _ => false end.

Definition is_neg_zero (x : float) : bool :=
  match classify x with NZero => true | _ => false end.

(** One round of the loop of ECMAScript's [Math.max]: [highest] is replaced
    by [number] when [number] is [+0] and [highest] is [-0], or when
    [number > highest]. *)
Definition max_step (highest number : float) : float :=
  if is_pos_zero number && is_neg_zero highest then number
  else if highest <? number then number
  else highest.

(** [Math.max(a, b)]: NaN when an argument is NaN, otherwise the fold of
    [max_step] from [-Infinity]. *)
Definition Math_max (a b : float) : float :=
  if is_nan a || is_nan b then nan
  else max_step (max_step neg_infinity a) b.

Definition min_step (lowest number : float) : float :=
  if is_neg_zero number && is_pos_zero lowest then number
  else if number <? lowest then number
  else lowest.

(** [Math.min(a, b)]: NaN when an argument is NaN, otherwise the fold of
    [min_step] from [+Infinity]. *)
Definition Math_min (a b : float) : float :=
  if is_nan a || is_nan b then nan
  else min_step (min_step infinity a) b.

Definition Math_abs (x : float) : float := abs x.

(** [a >= b] and [a > b] on numbers: false when an operand is NaN. *)
Definition ge (a b : float) : bool := b <=? a.
Definition gt (a b : float) : bool := b <? a.

(** [Array.prototype.find]: the first element that satisfies the predicate,
    [undefined] ([None]) when there is none. *)
Definition find {A : Type} (f : A -> bool) (l : list A) : option A :=
  List.find f l.

(** [a || b] where [a] is an object or [undefined]: an object is truthy. *)
Definition or_else {A : Type} (a b : option A) : option A :=
  match a with Some _ => a | None => b end.

(** [arr[i]] for a natural index: [undefined] out of range. *)
Definition index {A : Type} (l : list A) (i : nat) : option A := nth_error l i.

(** [arr[arr.length - 1]]: the last element, [undefined] for the empty array
    (the index is then [-1]). *)
Definition index_last {A : Type} (l : list A) : option A :=
  match length l with
  | O => None
  | S n => nth_error l n
  end.

End JS.

(** ** Data model *)

(** The parameter object destructured at the head of [runSimulation]. *)
Record Params := mkParams {
  C_G_aq_0 : float;
  C_G_s_0 : float;
  C_A_aq_0 : float;
  X_0 : float;
  k_max : float;
  K_s : float;
  mu_max : float;
  k_d : float;
  Y_x : float;
  K_d : float;
  k_sorp : float;
  theta : float;
  Y_A : float;
  k_A : float;
  t_final : float;
  dt : float
}.

(** The object pushed on [results] at every step. *)
Record Snapshot := mkSnapshot {
  time_h : float;
  time_days : float;
  C_G_aq : float;
  C_G_s : float;
  C_A_aq : float;
  X : float;
  C_total : float;
  removal_percent : float;
  monod_factor : float;
  r_degradation : float;
  r_sorption : float
}.

(** The loop variable [t] and the four [let] variables of [runSimulation]. *)
Record State := mkState {
  st_t : float;
  st_C_G_aq : float;
  st_C_G_s : float;
  st_C_A_aq : float;
  st_X : float
}.

Definition DEFAULT_PARAMS : Params :=
  {| C_G_aq_0 := 100; C_G_s_0 := 0; C_A_aq_0 := 0; X_0 := 10;
     k_max := 0.08; K_s := 20; mu_max := 0.05; k_d := 0.005; Y_x := 0.3;
     K_d := 50; k_sorp := 0.1; theta := 0.1;
     Y_A := 0.6; k_A := 0.02;
     t_final := 336; dt := 0.5 |}.

(** ** The simulation engine *)

Section Engine.

Variable p : Params.

Definition initial_state : State :=
  {| st_t := 0;
     st_C_G_aq := C_G_aq_0 p;
     st_C_G_s := C_G_s_0 p;
     st_C_A_aq := C_A_aq_0 p;
     st_X := X_0 p |}.

(** [const C_total_0 = C_G_aq_0 + theta * C_G_s_0]. *)
Definition C_total_0 : float := C_G_aq_0 p + theta p * C_G_s_0 p.

(** The loop is entered while [t <= t_final]. *)
Definition loop_guard (st : State) : bool := st_t st <=? t_final p.

(** The object pushed by one pass through the loop body. *)
Definition snapshot_of (st : State) : Snapshot :=
  let monod := st_C_G_aq st / (K_s p + st_C_G_aq st + 1e-10) in
  let r_degradation := k_max p * monod * st_X st in
  let r_sorption := k_sorp p * (st_C_G_aq st - st_C_G_s st / K_d p) in
  let C_total := st_C_G_aq st + theta p * st_C_G_s st in
  let removal_percent := 100 * (1 - C_total / C_total_0) in
  {| time_h := st_t st;
     time_days := st_t st / 24;
     C_G_aq := JS.Math_max 0 (st_C_G_aq st);
     C_G_s := JS.Math_max 0 (st_C_G_s st);
     C_A_aq := JS.Math_max 0 (st_C_A_aq st);
     X := JS.Math_max 0 (st_X st);
     C_total := JS.Math_max 0 C_total;
     removal_percent := JS.Math_min 100 (JS.Math_max 0 removal_percent);
     monod_factor := monod;
     r_degradation := r_degradation;
     r_sorption := r_sorption |}.

(** The values of [t], [C_G_aq], [C_G_s], [C_A_aq] and [X] after one pass
    through the loop body and the increment [t += dt]. *)
Definition advance (st : State) : State :=
  let monod := st_C_G_aq st / (K_s p + st_C_G_aq st + 1e-10) in
  let r_degradation := k_max p * monod * st_X st in
  let r_sorption := k_sorp p * (st_C_G_aq st - st_C_G_s st / K_d p) in
  let r_growth := mu_max p * monod * st_X st in
  let r_death := k_d p * st_X st in
  let r_AMPA_formation := Y_A p * r_degradation in
  let r_AMPA_degradation := k_A p * st_C_A_aq st in
  let dC_G_aq := - r_degradation - r_sorption in
  let dC_G_s := r_sorption / theta p in
  let dC_A_aq := r_AMPA_formation - r_AMPA_degradation in
  let dX := r_growth - r_death in
  {| st_t := st_t st + dt p;
     st_C_G_aq := JS.Math_max 0 (st_C_G_aq st + dC_G_aq * dt p);
     st_C_G_s := JS.Math_max 0 (st_C_G_s st + dC_G_s * dt p);
     st_C_A_aq := JS.Math_max 0 (st_C_A_aq st + dC_A_aq * dt p);
     st_X := JS.Math_max 0 (st_X st + dX * dt p) |}.

(** The [for] loop, run for at most [fuel] passes from state [st]: the
    snapshots pushed, in order, and whether the loop has exited. *)
Fixpoint iterate (fuel : nat) (st : State) : list Snapshot * bool :=
  match fuel with
  | O => ([], false)
  | S fuel' =>
      if loop_guard st then
        let '(rest, exited) := iterate fuel' (advance st) in
        (snapshot_of st :: rest, exited)
      else ([], true)
  end.

(** The snapshots pushed during the first [n] passes of the loop. *)
Definition emitted (n : nat) : list Snapshot := fst (iterate n initial_state).

(** [runSimulation(params)]: [Some results] when the loop exits within
    [fuel] passes, [None] when it is still running.  The function has no
    [throw] and no validation of its parameters. *)
Definition runSimulation (fuel : nat) : option (list Snapshot) :=
  let '(results, exited) := iterate fuel initial_state in
  if exited then Some results else None.

End Engine.

(** ** The metrics extractor *)

(** Reading a property of [undefined] throws a [TypeError]; nothing else in
    [calculateMetrics] throws. *)
Inductive Exn : Type := TypeError.

Inductive completion (A : Type) : Type :=
| Normal (a : A)
| Throw (e : Exn).

Arguments Normal {A} a.
Arguments Throw {A} e.

Definition bind {A B : Type} (c : completion A) (k : A -> completion B)
  : completion B :=
  match c with
  | Normal a => k a
  | Throw e => Throw e
  end.

Notation "x <- c ;; k" := (bind c (fun x => k))
  (at level 61, c at next level, right associativity).

(** [o.field] where [o] is a snapshot or [undefined]. *)
Definition read {A : Type} (o : option Snapshot) (field : Snapshot -> A)
  : completion A :=
  match o with
  | Some s => Normal (field s)
  | None => Throw TypeError
  end.

Record Metrics := mkMetrics {
  removal_day3 : float;
  removal_day7 : float;
  removal_day14 : float;
  C_G_aq_day3 : float;
  C_G_aq_day7 : float;
  C_G_aq_day14 : float;
  X_max : float;
  t_X_max : float;
  X_final : float;
  C_A_peak : float;
  t_A_peak : float;
  T90 : option float;
  final_removal : float
}.

(** [r => Math.abs(r.time_days - target) < 0.1]. *)
Definition near_day (target : float) (r : Snapshot) : bool :=
  JS.Math_abs (time_days r - target) <? 0.1.

(** [r => r.removal_percent >= 90]. *)
Definition reached_90 (r : Snapshot) : bool :=
  JS.ge (removal_percent r) 90.

Definition day3_point (results : list Snapshot) : option Snapshot :=
  JS.or_else (JS.find (near_day 3) results) (JS.index results 0).

Definition day7_point (results : list Snapshot) : option Snapshot :=
  JS.or_else (JS.find (near_day 7) results) (JS.index results 0).

Definition day14_point (results : list Snapshot) : option Snapshot :=
  JS.or_else (JS.find (near_day 14) results) (JS.index_last results).

(** [results.reduce((max, r) => r.field > max.field ? r : max, results[0])]. *)
Definition reduce_max (field : Snapshot -> float) (results : list Snapshot)
  : completion (option Snapshot) :=
  fold_left
    (fun acc r =>
       max <- acc ;;
       m <- read max field ;;
       Normal (if JS.gt (field r) m then Some r else max))
    results (Normal (JS.index results 0)).

Definition T90_point (results : list Snapshot) : option Snapshot :=
  JS.find reached_90 results.

(** [calculateMetrics(results, params)]; [params] is not used by the body. *)
Definition calculateMetrics (results : list Snapshot) : completion Metrics :=
  let day3 := day3_point results in
  let day7 := day7_point results in
  let day14 := day14_point results in
  X_max_point <- reduce_max X results ;;
  AMPA_peak <- reduce_max C_A_aq results ;;
  let T90 :=
    match T90_point results with
    | Some r => Some (time_days r)
    | None => None
    end in
  removal_day3 <- read day3 removal_percent ;;
  removal_day7 <- read day7 removal_percent ;;
  removal_day14 <- read day14 removal_percent ;;
  C_G_aq_day3 <- read day3 C_G_aq ;;
  C_G_aq_day7 <- read day7 C_G_aq ;;
  C_G_aq_day14 <- read day14 C_G_aq ;;
  X_max <- read X_max_point X ;;
  t_X_max <- read X_max_point time_days ;;
  X_final <- read (JS.index_last results) X ;;
  C_A_peak <- read AMPA_peak C_A_aq ;;
  t_A_peak <- read AMPA_peak time_days ;;
  final_removal <- read (JS.index_last results) removal_percent ;;
  Normal {| removal_day3 := removal_day3;
            removal_day7 := removal_day7;
            removal_day14 := removal_day14;
            C_G_aq_day3 := C_G_aq_day3;
            C_G_aq_day7 := C_G_aq_day7;
            C_G_aq_day14 := C_G_aq_day14;
            X_max := X_max;
            t_X_max := t_X_max;
            X_final := X_final;
            C_A_peak := C_A_peak;
            t_A_peak := t_A_peak;
            T90 := T90;
            final_removal := final_removal |}.

(** ** Vocabulary of the statements *)

(** A float that is [+0], [-0] or NaN. *)
Definition zero_or_nan (x : float) : bool := is_zero x || is_nan x.

(** A float that is neither a zero, nor an infinity, nor NaN. *)
Definition finite_nonzero (x : float) : bool := is_finite x && negb (is_zero x).

(** Equality of numbers up to the sign of zero (JavaScript's [===] on
    numbers that are not NaN). *)
Definition same_number (a b : float) : Prop :=
  a = b \/ (is_zero a = true /\ is_zero b = true).

(** The expression stored in the [removal_percent] field, as a function of
    [C_total] and [C_total_0]. *)
Definition removal_of (c c0 : float) : float :=
  JS.Math_min 100 (JS.Math_max 0 (100 * (1 - c / c0))).

(** ** Loop invariants *)

(** The variable [c] still holds its initial value [c0], up to the sign of
    zero, or has become NaN. *)
Definition frozen (c0 c : float) : Prop :=
  same_number c c0 \/ is_nan c = true.

Definition frozen_state (p : Params) (st : State) : Prop :=
  frozen (C_G_aq_0 p) (st_C_G_aq st) /\ frozen (C_G_s_0 p) (st_C_G_s st).

(** Both contaminant variables are zero or NaN. *)
Definition no_mass_state (st : State) : Prop :=
  zero_or_nan (st_C_G_aq st) = true /\ zero_or_nan (st_C_G_s st) = true.

(** The snapshot [r] is the first one of [l], in order, that satisfies [f]. *)
Definition first_match (f : Snapshot -> bool) (l : list Snapshot)
  (r : Snapshot) : Prop :=
  exists i, nth_error l i = Some r /\ f r = true /\
    forall j r', (j < i)%nat -> nth_error l j = Some r' -> f r' = false.

(** No snapshot of [l] satisfies [f]. *)
Definition no_match (f : Snapshot -> bool) (l : list Snapshot) : Prop :=
  forall r, In r l -> f r = false.

Definition first_snapshot (l : list Snapshot) (r : Snapshot) : Prop :=
  exists rest, l = r :: rest.

Definition last_snapshot (l : list Snapshot) (r : Snapshot) : Prop :=
  exists init, l = init ++ [r].

(** A lookup [results.find(f) || fallback]: the first match when there is
    one, the fallback snapshot otherwise. *)
Definition chosen_by (f : Snapshot -> bool)
  (fallback : list Snapshot -> Snapshot -> Prop)
  (l : list Snapshot) (r : Snapshot) : Prop :=
  first_match f l r \/ (no_match f l /\ fallback l r).

(** The invalid-parameter condition of the specification (section 7):
    [dt <= 0], [t_final <= 0], [dt > t_final] or a negative initial
    concentration.  [runSimulation] has no such test. *)
Definition spec_invalid_parameter (p : Params) : bool :=
  (dt p <=? 0) || (t_final p <=? 0) || (t_final p <? dt p)
  || (C_G_aq_0 p <? 0) || (C_G_s_0 p <? 0) || (C_A_aq_0 p <? 0)
  || (X_0 p <? 0).

(** ** Parameter sets used as examples *)

(** The defaults with a one-day horizon. *)
Definition one_day_run : Params :=
  {| C_G_aq_0 := 100; C_G_s_0 := 0; C_A_aq_0 := 0; X_0 := 10;
     k_max := 0.08; K_s := 20; mu_max := 0.05; k_d := 0.005; Y_x := 0.3;
     K_d := 50; k_sorp := 0.1; theta := 0.1;
     Y_A := 0.6; k_A := 0.02;
     t_final := 24; dt := 0.5 |}.

(** The defaults with a negative horizon. *)
Definition negative_horizon : Params :=
  {| C_G_aq_0 := 100; C_G_s_0 := 0; C_A_aq_0 := 0; X_0 := 10;
     k_max := 0.08; K_s := 20; mu_max := 0.05; k_d := 0.005; Y_x := 0.3;
     K_d := 50; k_sorp := 0.1; theta := 0.1;
     Y_A := 0.6; k_A := 0.02;
     t_final := -1; dt := 0.5 |}.

(** The defaults with a step longer than the horizon. *)
Definition step_beyond_horizon : Params :=
  {| C_G_aq_0 := 100; C_G_s_0 := 0; C_A_aq_0 := 0; X_0 := 10;
     k_max := 0.08; K_s := 20; mu_max := 0.05; k_d := 0.005; Y_x := 0.3;
     K_d := 50; k_sorp := 0.1; theta := 0.1;
     Y_A := 0.6; k_A := 0.02;
     t_final := 0.25; dt := 0.5 |}.

(** The defaults with a zero step. *)
Definition zero_step : Params :=
  {| C_G_aq_0 := 100; C_G_s_0 := 0; C_A_aq_0 := 0; X_0 := 10;
     k_max := 0.08; K_s := 20; mu_max := 0.05; k_d := 0.005; Y_x := 0.3;
     K_d := 50; k_sorp := 0.1; theta := 0.1;
     Y_A := 0.6; k_A := 0.02;
     t_final := 336; dt := 0 |}.

(** The defaults with a negative initial aqueous concentration. *)
Definition negative_concentration : Params :=
  {| C_G_aq_0 := -5; C_G_s_0 := 0; C_A_aq_0 := 0; X_0 := 10;
     k_max := 0.08; K_s := 20; mu_max := 0.05; k_d := 0.005; Y_x := 0.3;
     K_d := 50; k_sorp := 0.1; theta := 0.1;
     Y_A := 0.6; k_A := 0.02;
     t_final := 336; dt := 0.5 |}.

(** The defaults without biomass. *)
Definition no_biomass : Params :=
  {| C_G_aq_0 := 100; C_G_s_0 := 0; C_A_aq_0 := 0; X_0 := 0;
     k_max := 0.08; K_s := 20; mu_max := 0.05; k_d := 0.005; Y_x := 0.3;
     K_d := 50; k_sorp := 0.1; theta := 0.1;
     Y_A := 0.6; k_A := 0.02;
     t_final := 336; dt := 0.5 |}.

(** No biomass, a ten-day step and [k_sorp = 1]: the explicit scheme is
    unstable and the sorption exchange grows until it overflows. *)
Definition no_biomass_unstable : Params :=
  {| C_G_aq_0 := 100; C_G_s_0 := 0; C_A_aq_0 := 0; X_0 := 0;
     k_max := 0.08; K_s := 20; mu_max := 0.05; k_d := 0.005; Y_x := 0.3;
     K_d := 50; k_sorp := 1; theta := 0.1;
     Y_A := 0.6; k_A := 0.02;
     t_final := 72000; dt := 240 |}.

(** The defaults without degradation and without sorption. *)
Definition no_kinetics : Params :=
  {| C_G_aq_0 := 100; C_G_s_0 := 0; C_A_aq_0 := 0; X_0 := 10;
     k_max := 0; K_s := 20; mu_max := 0.05; k_d := 0.005; Y_x := 0.3;
     K_d := 50; k_sorp := 0; theta := 0.1;
     Y_A := 0.6; k_A := 0.02;
     t_final := 336; dt := 0.5 |}.

(** No degradation, no sorption, fast growth ([mu_max = 0.5]), a one-day
    step and a 300-day horizon: the biomass outgrows binary64. *)
Definition no_kinetics_long_run : Params :=
  {| C_G_aq_0 := 100; C_G_s_0 := 0; C_A_aq_0 := 0; X_0 := 10;
     k_max := 0; K_s := 20; mu_max := 0.5; k_d := 0.005; Y_x := 0.3;
     K_d := 50; k_sorp := 0; theta := 0.1;
     Y_A := 0.6; k_A := 0.02;
     t_final := 7200; dt := 24 |}.

(** The defaults without contaminant: the initial total mass is zero. *)
Definition no_contaminant : Params :=
  {| C_G_aq_0 := 0; C_G_s_0 := 0; C_A_aq_0 := 0; X_0 := 10;
     k_max := 0.08; K_s := 20; mu_max := 0.05; k_d := 0.005; Y_x := 0.3;
     K_d := 50; k_sorp := 0.1; theta := 0.1;
     Y_A := 0.6; k_A := 0.02;
     t_final := 336; dt := 0.5 |}.

(** Sorbed contaminant only and no solids ([theta = 0]): the initial total
    mass [0 + 0 * 5] is zero, the sorbed mass is not. *)
Definition sorbed_only_no_solids : Params :=
  {| C_G_aq_0 := 0; C_G_s_0 := 5; C_A_aq_0 := 0; X_0 := 10;
     k_max := 0.08; K_s := 20; mu_max := 0.05; k_d := 0.005; Y_x := 0.3;
     K_d := 50; k_sorp := 0.1; theta := 0;
     Y_A := 0.6; k_A := 0.02;
     t_final := 336; dt := 0.5 |}.

(** ** The order of binary64 numbers *)

(** A key whose lexicographic order is the order of the numbers: the class
    (negative infinity, negative, zero, positive, positive infinity), then
    the exponent and the mantissa, both negated for negative numbers.  NaN
    has no key. *)
Definition order_key (x : spec_float) : option (Z * Z * Z) :=
  match x with
  | S754_nan => None
  | S754_zero _ => Some (0, 0, 0)%Z
  | S754_infinity true => Some (-2, 0, 0)%Z
  | S754_infinity false => Some (2, 0, 0)%Z
  | S754_finite true m e => Some (-1, - e, Z.neg m)%Z
  | S754_finite false m e => Some (1, e, Z.pos m)%Z
  end.

Definition key_lt (k k' : Z * Z * Z) : Prop :=
  let '(a, b, c) := k in
  let '(a', b', c') := k' in
  (a < a' \/ (a = a' /\ (b < b' \/ (b = b' /\ c < c'))))%Z.

(** The four concentration variables are all NaN. *)
Definition poisoned (st : State) : Prop :=
  is_nan (st_C_G_aq st) = true /\ is_nan (st_C_G_s st) = true
  /\ is_nan (st_C_A_aq st) = true /\ is_nan (st_X st) = true.

(** The snapshot [pk] is the peak of [field] over [l]: no snapshot has a
    larger value, and every snapshot before [pk] has a smaller value or a
    NaN (so [pk] is the first to reach it). *)
Definition peak_of (field : Snapshot -> float) (l : list Snapshot)
  (pk : Snapshot) : Prop :=
  exists i, nth_error l i = Some pk
    /\ (forall r, In r l -> JS.gt (field r) (field pk) = false)
    /\ (forall j r, (j < i)%nat -> nth_error l j = Some r ->
          is_nan (field r) = true \/ JS.gt (field pk) (field r) = true).

(** ** The horizon slider *)

(** The number [n] as a binary64 value (exact below 2^53). *)
Definition float_of_nat (n : nat) : float :=
  of_uint63 (Uint63.of_Z (Z.of_nat n)).

(** The values of the [t_final] slider of the parameter panel
    ([min: 24, max: 720, step: 24]): [24 * k] hours, that is [k] days, for
    [k] from 1 to 30. *)
Definition t_final_slider : list (nat * float) :=
  map (fun k => (k, float_of_nat (24 * k))) (seq 1 30).

(** The defaults with another horizon; the step is the default 0.5 h, which
    the panel does not offer to change. *)
Definition with_horizon (tf : float) : Params :=
  {| C_G_aq_0 := 100; C_G_s_0 := 0; C_A_aq_0 := 0; X_0 := 10;
     k_max := 0.08; K_s := 20; mu_max := 0.05; k_d := 0.005; Y_x := 0.3;
     K_d := 50; k_sorp := 0.1; theta := 0.1;
     Y_A := 0.6; k_A := 0.02;
     t_final := tf; dt := 0.5 |}.

(** The half-hour time stamps [0, 0.5, ..., 24 * k]. *)
Definition half_hour_grid (k : nat) : list float :=
  map (fun i => float_of_nat i / 2) (seq 0 (48 * k + 1)).

(** The time stamps of the three day lookups. *)
Definition lookup_times (results : list Snapshot)
  : option float * option float * option float :=
  (option_map time_h (day3_point results),
   option_map time_h (day7_point results),
   option_map time_h (day14_point results)).

(** ** The presentation layer: tables, charts and playback *)

Module UI.

(** [arr.filter((_, i) => f(i))] scanned from index [i]. *)
Fixpoint filter_from {A : Type} (f : Z -> bool) (i : Z) (l : list A)
  : list A :=
  match l with
  | [] => []
  | a :: l' =>
      if f i then a :: filter_from f (i + 1) l' else filter_from f (i + 1) l'
  end.

Definition filter_index {A : Type} (f : Z -> bool) (l : list A) : list A :=
  filter_from f 0 l.

(** [ResultsTable]:
    [results.filter((_, i) => i % 48 === 0 || i === results.length - 1)]. *)
Definition displayResults (results : list Snapshot) : list Snapshot :=
  filter_index
    (fun i => (Z.rem i 48 =? 0)%Z
              || (i =? Z.of_nat (length results) - 1)%Z)
    results.

(** [SimulationCharts]: [results.filter((_, i) => i % 4 === 0)]. *)
Definition chartData (results : list Snapshot) : list Snapshot :=
  filter_index (fun i => (Z.rem i 4 =? 0)%Z) results.

(** The playback state of [App]: [currentTimeIndex] and [isPlaying]. *)
Record Playback := mkPlayback {
  currentTimeIndex : Z;
  isPlaying : bool
}.

(** The state left by [handleSimulate]: [setCurrentTimeIndex(0)] and
    [setIsPlaying(true)]. *)
Definition started : Playback :=
  {| currentTimeIndex := 0; isPlaying := true |}.

(** One period of the playback timer for a trajectory of [len] snapshots.
    The effect installs no timer when [!isPlaying || results.length === 0];
    otherwise the updater stops at [prev >= results.length - 1] and advances
    by 2 before. *)
Definition tick (len : nat) (s : Playback) : Playback :=
  if negb (isPlaying s) || (len =? 0)%nat then s
  else if (currentTimeIndex s >=? Z.of_nat len - 1)%Z
       then {| currentTimeIndex := currentTimeIndex s; isPlaying := false |}
       else {| currentTimeIndex := currentTimeIndex s + 2;
               isPlaying := isPlaying s |}.

(** The six fields that the page reads from [currentData]. *)
Record Displayed := mkDisplayed {
  shown_C_G_aq : float;
  shown_C_G_s : float;
  shown_C_A_aq : float;
  shown_X : float;
  shown_time_days : float;
  shown_removal_percent : float
}.

Definition shown_of (r : Snapshot) : Displayed :=
  {| shown_C_G_aq := C_G_aq r;
     shown_C_G_s := C_G_s r;
     shown_C_A_aq := C_A_aq r;
     shown_X := X r;
     shown_time_days := time_days r;
     shown_removal_percent := removal_percent r |}.

(** [results[i]] for an integer index: [undefined] out of range. *)
Definition index_Z {A : Type} (l : list A) (i : Z) : option A :=
  if (i <? 0)%Z then None else nth_error l (Z.to_nat i).

(** [const currentData = results[currentTimeIndex] || { ... }]. *)
Definition currentData (params : Params) (results : list Snapshot)
  (i : Z) : Displayed :=
  match index_Z results i with
  | Some r => shown_of r
  | None =>
      {| shown_C_G_aq := C_G_aq_0 params;
         shown_C_G_s := 0;
         shown_C_A_aq := 0;
         shown_X := X_0 params;
         shown_time_days := 0;
         shown_removal_percent := 0 |}
  end.

(** A bubble of [AerationBubbles]. *)
Record Bubble := mkBubble {
  b_id : float;
  b_x : float;
  b_y : float;
  b_z : float;
  b_size : float
}.

(** What one update of the bubbles reads from outside: the results of
    [Math.random()] for the test, of [Date.now()], and of [Math.random()]
    for [x], [z] and [size], in the order of the calls. *)
Record Draw := mkDraw {
  rnd_test : float;
  now : float;
  rnd_x : float;
  rnd_z : float;
  rnd_size : float
}.

(** [{ ...b, y: b.y + 0.05 }]. *)
Definition rise (b : Bubble) : Bubble :=
  {| b_id := b_id b; b_x := b_x b; b_y := b_y b + 0.05;
     b_z := b_z b; b_size := b_size b |}.

Definition new_bubble (d : Draw) : Bubble :=
  {| b_id := now d;
     b_x := (rnd_x d - 0.5) * 2;
     b_y := -2;
     b_z := (rnd_z d - 0.5) * 2;
     b_size := 0.02 + rnd_size d * 0.03 |}.

(** [arr.slice(-n)]: the last [n] elements. *)
Definition slice_last {A : Type} (n : nat) (l : list A) : list A :=
  skipn (length l - n) l.

(** The updater passed to [setBubbles]. *)
Definition update_bubbles (d : Draw) (prev : list Bubble) : list Bubble :=
  let newBubbles := filter (fun b => b_y b <? 2) (map rise prev) in
  let newBubbles :=
    if JS.gt (rnd_test d) 0.7 then newBubbles ++ [new_bubble d]
    else newBubbles in
  slice_last 30 newBubbles.

End UI.

(** ** The CSV export *)

Module CSV.

Import Stdlib.Strings.Ascii Stdlib.Strings.String.

(** The line separator ['\n']. *)
Definition newline_char : ascii := ascii_of_nat 10.
Definition newline : string := String newline_char EmptyString.
Definition comma_char : ascii := ascii_of_nat 44.
Definition comma : string := String comma_char EmptyString.

(** [arr.join(sep)] on an array of strings. *)
Definition join (sep : string) (l : list string) : string := concat sep l.

Definition headers : list string :=
  ["Tiempo (h)"%string; "Tiempo (días)"%string; "C_G_aq (mg/L)"%string;
   "C_G_s (mg/kg)"%string; "C_A_aq (mg/L)"%string; "X (mg/L)"%string;
   "Remoción (%)"%string].

Section Formatting.

(** [Number.prototype.toFixed], a built-in of the language. *)
Variable toFixed : float -> nat -> string.

(** The array built for one snapshot by [results.map(r => [...])]. *)
Definition row (r : Snapshot) : list string :=
  [toFixed (time_h r) 2; toFixed (time_days r) 3; toFixed (C_G_aq r) 4;
   toFixed (C_G_s r) 4; toFixed (C_A_aq r) 4; toFixed (X r) 4;
   toFixed (removal_percent r) 2].

(** [[headers.join(','), ...rows.map(r => r.join(','))].join('\n')]. *)
Definition csvContent (results : list Snapshot) : string :=
  join newline
    (join comma headers :: map (fun r => join comma r) (map row results)).

(** [exportToCSV]: nothing is produced for an empty trajectory; otherwise
    the text handed to the [Blob] that is downloaded. *)
Definition exportToCSV (results : list Snapshot) : option string :=
  if (List.length results =? 0)%nat then None
  else Some (csvContent results).

End Formatting.

(** The number of occurrences of a character in a string. *)
Fixpoint count (c : ascii) (s : string) : nat :=
  match s with
  | EmptyString => 0
  | String a s' => (if Ascii.eqb a c then 1 else 0) + count c s'
  end.

End CSV.

(** * Facts about binary64 arithmetic *)

Lemma is_nan_shape x :
  is_nan x = match Prim2SF x with S754_nan => true | _ => false end.
Proof.
  unfold is_nan. rewrite FloatAxioms.eqb_spec. unfold SFeqb, SFcompare.
  destruct (Prim2SF x) as [s|s| |s m e];
    try (destruct s; reflexivity); try reflexivity.
  rewrite Z.compare_refl, Pos.compare_cont_refl. destruct s; reflexivity.
Qed.

Lemma is_zero_shape x :
  is_zero x = match Prim2SF x with S754_zero _ => true | _ => false end.
Proof.
  unfold is_zero. rewrite FloatAxioms.eqb_spec.
  change (Prim2SF zero) with (S754_zero false).
  destruct (Prim2SF x) as [s|s| |s m e];
    try (destruct s; reflexivity); reflexivity.
Qed.

Lemma is_nan_eq x : is_nan x = true -> x = nan.
Proof.
  rewrite is_nan_shape. intros H. apply Prim2SF_inj.
  change (Prim2SF nan) with S754_nan.
  destruct (Prim2SF x); try discriminate; reflexivity.
Qed.

Lemma zero_or_nan_shape x :
  zero_or_nan x =
  match Prim2SF x with S754_zero _ | S754_nan => true | _ => false end.
Proof.
  unfold zero_or_nan. rewrite is_zero_shape, is_nan_shape.
  destruct (Prim2SF x); reflexivity.
Qed.

Lemma finite_nonzero_shape x :
  finite_nonzero x = true -> exists s m e, Prim2SF x = S754_finite s m e.
Proof.
  unfold finite_nonzero, is_finite, is_infinity.
  rewrite is_zero_shape, is_nan_shape, FloatAxioms.eqb_spec, abs_spec.
  change (Prim2SF infinity) with (S754_infinity false).
  destruct (Prim2SF x) as [s|s| |s m e]; simpl; try discriminate.
  intros _. now exists s, m, e.
Qed.

(** Shapes: case analysis on the IEEE class of each float of the goal. *)
Ltac to_shapes :=
  rewrite ?zero_or_nan_shape, ?is_zero_shape, ?is_nan_shape,
    ?ltb_spec, ?leb_spec, ?add_spec, ?sub_spec, ?mul_spec, ?div_spec,
    ?opp_spec in *;
  unfold SF64add, SF64sub, SF64mul, SF64div in *.

(** *** Zeros and NaN are absorbing *)

Lemma zn_mul_l x y : zero_or_nan x = true -> zero_or_nan (x * y) = true.
Proof.
  to_shapes. destruct (Prim2SF x) as [s|s| |s m e]; try discriminate;
    destruct (Prim2SF y) as [s'|s'| |s' m' e']; reflexivity.
Qed.

Lemma zn_mul_r x y : zero_or_nan y = true -> zero_or_nan (x * y) = true.
Proof.
  to_shapes. destruct (Prim2SF y) as [s|s| |s m e]; try discriminate;
    destruct (Prim2SF x) as [s'|s'| |s' m' e']; reflexivity.
Qed.

Lemma zn_div_l x y : zero_or_nan x = true -> zero_or_nan (x / y) = true.
Proof.
  to_shapes. destruct (Prim2SF x) as [s|s| |s m e]; try discriminate;
    destruct (Prim2SF y) as [s'|s'| |s' m' e']; reflexivity.
Qed.

Lemma zn_add x y :
  zero_or_nan x = true -> zero_or_nan y = true -> zero_or_nan (x + y) = true.
Proof.
  to_shapes.
  destruct (Prim2SF x) as [[]|s| |s m e]; try discriminate;
    destruct (Prim2SF y) as [[]|s'| |s' m' e']; try discriminate; reflexivity.
Qed.

Lemma zn_sub x y :
  zero_or_nan x = true -> zero_or_nan y = true -> zero_or_nan (x - y) = true.
Proof.
  to_shapes.
  destruct (Prim2SF x) as [[]|s| |s m e]; try discriminate;
    destruct (Prim2SF y) as [[]|s'| |s' m' e']; try discriminate; reflexivity.
Qed.

Lemma zn_opp x : zero_or_nan x = true -> zero_or_nan (- x) = true.
Proof.
  to_shapes. destruct (Prim2SF x) as [s|s| |s m e]; try discriminate;
    reflexivity.
Qed.

Lemma zn_of_zero x : is_zero x = true -> zero_or_nan x = true.
Proof. unfold zero_or_nan. now intros ->. Qed.

Lemma zn_of_nan x : is_nan x = true -> zero_or_nan x = true.
Proof. unfold zero_or_nan. intros ->. apply orb_true_r. Qed.

Create HintDb absorb discriminated.
#[local] Hint Resolve zn_mul_l zn_mul_r zn_div_l zn_add zn_sub zn_opp
  zn_of_zero : absorb.

(** *** NaN is contagious *)

Lemma nan_add_l x y : is_nan x = true -> is_nan (x + y) = true.
Proof.
  to_shapes. destruct (Prim2SF x); try discriminate; reflexivity.
Qed.

Lemma nan_add_r x y : is_nan y = true -> is_nan (x + y) = true.
Proof.
  to_shapes. destruct (Prim2SF y); try discriminate;
    destruct (Prim2SF x) as [| | |]; reflexivity.
Qed.

Lemma nan_mul_r x y : is_nan y = true -> is_nan (x * y) = true.
Proof.
  to_shapes. destruct (Prim2SF y); try discriminate;
    destruct (Prim2SF x) as [| | |]; reflexivity.
Qed.

Lemma nan_mul_l x y : is_nan x = true -> is_nan (x * y) = true.
Proof.
  to_shapes. destruct (Prim2SF x); try discriminate; reflexivity.
Qed.

Lemma nan_div_l x y : is_nan x = true -> is_nan (x / y) = true.
Proof.
  to_shapes. destruct (Prim2SF x); try discriminate; reflexivity.
Qed.

Lemma nan_sub_r x y : is_nan y = true -> is_nan (x - y) = true.
Proof.
  to_shapes. destruct (Prim2SF y); try discriminate;
    destruct (Prim2SF x) as [| | |]; reflexivity.
Qed.

(** *** The two clamps *)

Lemma Math_max_0 x :
  JS.Math_max 0 x = if is_nan x then nan else if 0 <? x then x else 0.
Proof.
  unfold JS.Math_max.
  change (is_nan 0) with false.
  change (JS.max_step neg_infinity 0) with 0.
  unfold JS.max_step. change (JS.is_neg_zero 0) with false.
  rewrite andb_false_r. reflexivity.
Qed.

Lemma Math_min_100 x :
  JS.Math_min 100 x = if is_nan x then nan else if x <? 100 then x else 100.
Proof.
  unfold JS.Math_min.
  change (is_nan 100) with false.
  change (JS.min_step infinity 100) with 100.
  unfold JS.min_step. change (JS.is_pos_zero 100) with false.
  rewrite andb_false_r. reflexivity.
Qed.

Lemma clamp_nan x : is_nan x = true -> is_nan (JS.Math_max 0 x) = true.
Proof. intros H. rewrite Math_max_0, H. reflexivity. Qed.

Lemma clamp_zero x : is_zero x = true -> JS.Math_max 0 x = 0.
Proof.
  intros H. rewrite Math_max_0.
  rewrite is_nan_shape, ltb_spec. rewrite is_zero_shape in H.
  change (Prim2SF 0) with (S754_zero false).
  destruct (Prim2SF x); try discriminate; reflexivity.
Qed.

Lemma clamp_zn x :
  zero_or_nan x = true ->
  JS.Math_max 0 x = 0 \/ is_nan (JS.Math_max 0 x) = true.
Proof.
  unfold zero_or_nan. intros H. apply orb_true_iff in H as [H|H].
  - left. now apply clamp_zero.
  - right. now apply clamp_nan.
Qed.

Lemma zn_clamp x : zero_or_nan x = true -> zero_or_nan (JS.Math_max 0 x) = true.
Proof.
  intros H. destruct (clamp_zn x H) as [-> | E].
  - reflexivity.
  - now apply zn_of_nan.
Qed.


(** *** Comparisons *)

Lemma SFcompare_antisym x y c :
  SFcompare x y = Some c -> SFcompare y x = Some (CompOpp c).
Proof.
  destruct x as [[]|[]| |[] m e], y as [[]|[]| |[] m' e']; simpl;
    intros H; inversion H as [H']; clear H; try reflexivity;
    rewrite (Z.compare_antisym e' e), (ZC4 m m');
    destruct (e' ?= e)%Z; simpl; try reflexivity;
    destruct (Pos.compare_cont Eq m' m); reflexivity.
Qed.

Lemma ltb_not_leb x y : (x <? y) = true -> (y <=? x) = false.
Proof.
  rewrite ltb_spec, leb_spec. unfold SFltb, SFleb.
  destruct (SFcompare (Prim2SF x) (Prim2SF y)) as [[]|] eqn:E; try discriminate.
  intros _. now rewrite (SFcompare_antisym _ _ _ E).
Qed.

Lemma ltb_not_ltb x y : (x <? y) = true -> (y <? x) = false.
Proof.
  rewrite !ltb_spec. unfold SFltb.
  destruct (SFcompare (Prim2SF x) (Prim2SF y)) as [[]|] eqn:E; try discriminate.
  intros _. now rewrite (SFcompare_antisym _ _ _ E).
Qed.

Lemma ltb_not_nan_l x y : (x <? y) = true -> is_nan x = false.
Proof.
  rewrite ltb_spec, is_nan_shape. unfold SFltb.
  destruct (Prim2SF x); try reflexivity. discriminate.
Qed.

(** *** Adding a zero *)

Lemma same_number_refl a : same_number a a.
Proof. now left. Qed.

Lemma same_number_sym a b : same_number a b -> same_number b a.
Proof. intros [->|[H1 H2]]; [now left | now right]. Qed.

Lemma same_number_trans a b c :
  same_number a b -> same_number b c -> same_number a c.
Proof.
  intros [->|[H1 H2]] [->|[H3 H4]]; try (now left); now right.
Qed.

Lemma add_zero_r x z : is_zero z = true -> same_number (x + z) x.
Proof.
  intros Hz. rewrite is_zero_shape in Hz.
  destruct (Prim2SF z) as [sz| | |] eqn:Ez; try discriminate.
  destruct (Prim2SF x) as [sx|sx| |sx m e] eqn:Ex.
  - right. rewrite !is_zero_shape, add_spec, Ex, Ez.
    destruct sx, sz; split; reflexivity.
  - left. apply Prim2SF_inj. rewrite add_spec, Ex, Ez. reflexivity.
  - left. apply Prim2SF_inj. rewrite add_spec, Ex, Ez. reflexivity.
  - left. apply Prim2SF_inj. rewrite add_spec, Ex, Ez. reflexivity.
Qed.

Lemma add_zero_l x z : is_zero z = true -> same_number (z + x) x.
Proof.
  intros Hz. rewrite is_zero_shape in Hz.
  destruct (Prim2SF z) as [sz| | |] eqn:Ez; try discriminate.
  destruct (Prim2SF x) as [sx|sx| |sx m e] eqn:Ex.
  - right. rewrite !is_zero_shape, add_spec, Ex, Ez.
    destruct sx, sz; split; reflexivity.
  - left. apply Prim2SF_inj. rewrite add_spec, Ex, Ez. reflexivity.
  - left. apply Prim2SF_inj. rewrite add_spec, Ex, Ez. reflexivity.
  - left. apply Prim2SF_inj. rewrite add_spec, Ex, Ez. reflexivity.
Qed.

Lemma same_number_add a a' b b' :
  same_number a a' -> same_number b b' -> same_number (a + b) (a' + b').
Proof.
  intros [->|[Ha Ha']] [->|[Hb Hb']].
  - apply same_number_refl.
  - eapply same_number_trans; [apply add_zero_r, Hb|].
    apply same_number_sym, add_zero_r, Hb'.
  - eapply same_number_trans; [apply add_zero_l, Ha|].
    apply same_number_sym, add_zero_l, Ha'.
  - eapply same_number_trans; [apply add_zero_l, Ha|].
    eapply same_number_trans; [|apply same_number_sym, add_zero_l, Ha'].
    right. now split.
Qed.

Lemma same_number_mul_r t b b' :
  same_number b b' -> same_number (t * b) (t * b').
Proof.
  intros [->|[Hb Hb']]; [apply same_number_refl|].
  rewrite is_zero_shape in Hb, Hb'.
  destruct (Prim2SF b) as [sb| | |] eqn:Eb; try discriminate.
  destruct (Prim2SF b') as [sb'| | |] eqn:Eb'; try discriminate.
  destruct (Prim2SF t) as [st|st| |st m e] eqn:Et.
  - right. rewrite !is_zero_shape, !mul_spec, Et, Eb, Eb'. now split.
  - left. apply Prim2SF_inj. rewrite !mul_spec, Et, Eb, Eb'. reflexivity.
  - left. apply Prim2SF_inj. rewrite !mul_spec, Et, Eb, Eb'. reflexivity.
  - right. rewrite !is_zero_shape, !mul_spec, Et, Eb, Eb'. now split.
Qed.

Lemma same_number_nonzero a b :
  same_number a b -> is_zero b = false -> a = b.
Proof. intros [->|[_ H]] Hb; [reflexivity | congruence]. Qed.

Lemma clamp_same_number a b :
  same_number a b -> JS.Math_max 0 a = JS.Math_max 0 b.
Proof.
  intros [->|[Ha Hb]]; [reflexivity|]. now rewrite !clamp_zero.
Qed.

(** A non-negative number is left alone by the clamp, up to the sign of
    zero. *)
Lemma clamp_nonneg b : (0 <=? b) = true -> same_number (JS.Math_max 0 b) b.
Proof.
  intros H. rewrite Math_max_0.
  rewrite leb_spec in H. rewrite is_nan_shape, ltb_spec.
  change (Prim2SF 0) with (S754_zero false) in *.
  destruct (Prim2SF b) as [s|[]| |[] m e] eqn:E; try discriminate.
  - right. split; [reflexivity|]. rewrite is_zero_shape, E. reflexivity.
  - now left.
  - now left.
Qed.

(** *** A finite non-zero number divided by itself *)

Lemma SFdiv_self s m e :
  SFdiv prec emax (S754_finite s m e) (S754_finite s m e) = Prim2SF 1.
Proof.
  unfold SFdiv.
  assert (H : SFdiv_core_binary prec emax (Z.pos m) e (Z.pos m) e
              = (2 ^ 53, -53, SpecFloat.loc_Exact)%Z).
  { unfold SFdiv_core_binary.
    replace (Zdigits2 (Z.pos m) + e - (Zdigits2 (Z.pos m) + e))%Z
      with 0%Z by lia.
    replace (e - e)%Z with 0%Z by lia.
    change (Z.min (fexp prec emax 0) 0) with (-53)%Z.
    change (0 - -53)%Z with 53%Z. cbv beta iota zeta.
    rewrite Z.shiftl_mul_pow2 by lia.
    pose proof (Z_div_mult_full (2 ^ 53) (Z.pos m)) as D.
    pose proof (Z_mod_mult (2 ^ 53) (Z.pos m)) as M.
    unfold Z.div, Z.modulo in D, M.
    rewrite (Z.mul_comm (Z.pos m)).
    destruct (Z.div_eucl (2 ^ 53 * Z.pos m) (Z.pos m)) as [q r].
    simpl in D, M. rewrite D, M by lia.
    unfold new_location. destruct (Z.even (Z.pos m)); reflexivity. }
  rewrite H. destruct s; reflexivity.
Qed.

Lemma div_self x : finite_nonzero x = true -> x / x = 1.
Proof.
  intros H. destruct (finite_nonzero_shape x H) as (s & m & e & E).
  apply Prim2SF_inj. rewrite div_spec, E. apply SFdiv_self.
Qed.

(** *** The removal percentage *)

Lemma removal_self x : finite_nonzero x = true -> removal_of x x = 0.
Proof. intros H. unfold removal_of. rewrite (div_self x H). reflexivity. Qed.

Lemma removal_nan_num c c0 :
  is_nan c = true -> is_nan (removal_of c c0) = true.
Proof.
  intros H. unfold removal_of.
  assert (N : is_nan (100 * (1 - c / c0)) = true)
    by now apply nan_mul_r, nan_sub_r, nan_div_l.
  rewrite Math_max_0, N. reflexivity.
Qed.

(** With a zero or NaN numerator over a zero or NaN denominator the quotient
    is NaN, and so is the removal percentage. *)
Lemma removal_zn c c0 :
  zero_or_nan c = true -> zero_or_nan c0 = true ->
  is_nan (removal_of c c0) = true.
Proof.
  intros Hc H0. unfold removal_of.
  assert (Q : is_nan (c / c0) = true).
  { to_shapes.
    destruct (Prim2SF c) as [s|s| |s m e]; try discriminate;
      destruct (Prim2SF c0) as [s'|s'| |s' m' e']; try discriminate;
      reflexivity. }
  assert (N : is_nan (100 * (1 - c / c0)) = true)
    by now apply nan_mul_r, nan_sub_r.
  rewrite Math_max_0, N. reflexivity.
Qed.

(** Over a zero denominator the quotient is NaN or an infinity, which the
    clamp sends to NaN, 0 or 100. *)
Lemma removal_zero_den c c0 :
  is_zero c0 = true ->
  is_nan (removal_of c c0) = true \/ removal_of c c0 = 0
  \/ removal_of c c0 = 100.
Proof.
  intros H0. rewrite is_zero_shape in H0.
  destruct (Prim2SF c0) as [s0| | |] eqn:E0; try discriminate.
  assert (Q : Prim2SF (c / c0) = S754_nan \/
              Prim2SF (c / c0) = Prim2SF infinity \/
              Prim2SF (c / c0) = Prim2SF neg_infinity).
  { rewrite div_spec, E0. unfold SF64div, SFdiv.
    destruct (Prim2SF c) as [s|s| |s m e]; auto;
      destruct s, s0; auto. }
  destruct Q as [Q|[Q|Q]].
  - left. unfold removal_of.
    assert (N : is_nan (100 * (1 - c / c0)) = true).
    { apply nan_mul_r, nan_sub_r. rewrite is_nan_shape, Q. reflexivity. }
    rewrite Math_max_0, N. reflexivity.
  - right; left. unfold removal_of.
    rewrite (Prim2SF_inj _ _ Q). reflexivity.
  - right; right. unfold removal_of.
    rewrite (Prim2SF_inj _ _ Q). reflexivity.
Qed.

(** *** The clamps bound every recorded field, NaN apart *)

Lemma ltb_leb x y : (x <? y) = true -> (x <=? y) = true.
Proof.
  rewrite ltb_spec, leb_spec. unfold SFltb, SFleb.
  destruct (SFcompare (Prim2SF x) (Prim2SF y)) as [[]|]; congruence.
Qed.

Lemma leb_not_nan_r x y : (x <=? y) = true -> is_nan y = false.
Proof.
  rewrite leb_spec, is_nan_shape. unfold SFleb.
  destruct (Prim2SF y); try reflexivity.
  destruct (Prim2SF x) as [| | |]; discriminate.
Qed.

Lemma clamp_range x :
  is_nan (JS.Math_max 0 x) = true \/ (0 <=? JS.Math_max 0 x) = true.
Proof.
  rewrite Math_max_0. destruct (is_nan x); [now left|].
  destruct (0 <? x) eqn:L; right; [now apply ltb_leb | reflexivity].
Qed.

Lemma removal_range c c0 :
  is_nan (removal_of c c0) = true
  \/ ((0 <=? removal_of c c0) = true /\ (removal_of c c0 <=? 100) = true).
Proof.
  unfold removal_of. set (y := JS.Math_max 0 (100 * (1 - c / c0))).
  rewrite Math_min_100.
  destruct (clamp_range (100 * (1 - c / c0))) as [N|R]; fold y in N || fold y in R.
  - rewrite N. now left.
  - rewrite (leb_not_nan_r _ _ R). right.
    destruct (y <? 100) eqn:L.
    + split; [exact R | now apply ltb_leb].
    + split; reflexivity.
Qed.

(** Every recorded concentration is [>= 0] and every recorded removal is in
    [0, 100], unless the field is NaN. *)
Lemma snapshot_bounds_or_nan p st :
  let s := snapshot_of p st in
  (is_nan (C_G_aq s) = true \/ (0 <=? C_G_aq s) = true)
  /\ (is_nan (C_G_s s) = true \/ (0 <=? C_G_s s) = true)
  /\ (is_nan (C_A_aq s) = true \/ (0 <=? C_A_aq s) = true)
  /\ (is_nan (X s) = true \/ (0 <=? X s) = true)
  /\ (is_nan (removal_percent s) = true
      \/ ((0 <=? removal_percent s) = true
          /\ (removal_percent s <=? 100) = true)).
Proof.
  simpl. repeat split; try apply clamp_range. apply removal_range.
Qed.

(** * The loop of [runSimulation] *)

Section Loop.

Variable p : Params.

Lemma runSimulation_emitted fuel results :
  runSimulation p fuel = Some results -> results = emitted p fuel.
Proof.
  unfold runSimulation, emitted.
  destruct (iterate p fuel (initial_state p)) as [l []]; simpl; congruence.
Qed.

(** The rule for loop invariants: a property of the state kept by one pass
    of the body holds of every state that is recorded. *)
Lemma iterate_invariant (I : State -> Prop) (P : Snapshot -> Prop) :
  (forall st, I st -> I (advance p st)) ->
  (forall st, I st -> P (snapshot_of p st)) ->
  forall fuel st, I st ->
  forall s, In s (fst (iterate p fuel st)) -> P s.
Proof.
  intros Hstep Hsnap. induction fuel as [|fuel IH]; intros st Hst s Hin.
  - destruct Hin.
  - simpl in Hin. destruct (loop_guard p st); [|destruct Hin].
    specialize (IH (advance p st) (Hstep st Hst) s).
    destruct (iterate p fuel (advance p st)) as [rest exited].
    destruct Hin as [<-|Hin]; auto.
Qed.

Lemma emitted_invariant (I : State -> Prop) (P : Snapshot -> Prop) :
  I (initial_state p) ->
  (forall st, I st -> I (advance p st)) ->
  (forall st, I st -> P (snapshot_of p st)) ->
  forall fuel s, In s (emitted p fuel) -> P s.
Proof.
  intros H0 Hstep Hsnap fuel s. unfold emitted.
  now apply (iterate_invariant I P Hstep Hsnap).
Qed.

Lemma iterate_head fuel st s0 :
  hd_error (fst (iterate p fuel st)) = Some s0 -> s0 = snapshot_of p st.
Proof.
  destruct fuel as [|fuel]; simpl; [discriminate|].
  destruct (loop_guard p st); [|discriminate].
  destruct (iterate p fuel (advance p st)) as [rest exited]. simpl.
  congruence.
Qed.

(** Once the loop has exited more fuel changes nothing. *)
Lemma iterate_exit_unique n :
  forall m st l l',
    iterate p n st = (l, true) -> iterate p m st = (l', true) -> l = l'.
Proof.
  induction n as [|n IH]; intros m st l l' Hn Hm; [discriminate|].
  destruct m as [|m]; [discriminate|].
  simpl in Hn, Hm. destruct (loop_guard p st).
  - destruct (iterate p n (advance p st)) as [r1 e1] eqn:E1.
    destruct (iterate p m (advance p st)) as [r2 e2] eqn:E2.
    inversion Hn; inversion Hm; subst.
    f_equal. eapply IH; eassumption.
  - congruence.
Qed.

(** *** Degenerate step configurations *)

Lemma negative_t_final_no_pass fuel :
  (t_final p <? 0) = true -> iterate p (S fuel) (initial_state p) = ([], true).
Proof.
  intros H. simpl. unfold loop_guard. simpl.
  now rewrite (ltb_not_leb _ _ H).
Qed.

Lemma large_dt_one_pass fuel :
  (0 <=? t_final p) = true -> (t_final p <? dt p) = true ->
  iterate p (S (S fuel)) (initial_state p)
  = ([snapshot_of p (initial_state p)], true).
Proof.
  intros H0 H1.
  change (iterate p (S (S fuel)) (initial_state p))
    with (if loop_guard p (initial_state p)
          then let '(rest, exited) :=
                 iterate p (S fuel) (advance p (initial_state p)) in
               (snapshot_of p (initial_state p) :: rest, exited)
          else ([], true)).
  unfold loop_guard at 1. simpl st_t. rewrite H0.
  assert (G : loop_guard p (advance p (initial_state p)) = false).
  { unfold loop_guard. simpl st_t.
    assert (E : 0 + dt p = dt p).
    { destruct (add_zero_l (dt p) 0 eq_refl) as [E|[_ Z]]; [exact E|].
      exfalso. rewrite ltb_spec in H1. rewrite leb_spec in H0.
      rewrite is_zero_shape in Z.
      change (Prim2SF 0) with (S754_zero false) in H0.
      destruct (Prim2SF (dt p)); try discriminate.
      destruct (Prim2SF (t_final p)) as [|[]| |[]]; discriminate. }
    rewrite E. now apply ltb_not_leb. }
  simpl iterate. rewrite G. reflexivity.
Qed.

Lemma zero_dt_never_exits :
  is_zero (dt p) = true -> (0 <=? t_final p) = true ->
  forall fuel st, st_t st = 0 -> snd (iterate p fuel st) = false.
Proof.
  intros Hdt Ht. induction fuel as [|fuel IH]; intros st E; [reflexivity|].
  simpl. unfold loop_guard. rewrite E, Ht.
  assert (E' : st_t (advance p st) = 0).
  { simpl. rewrite E. apply Prim2SF_inj. rewrite add_spec.
    rewrite is_zero_shape in Hdt.
    change (Prim2SF 0) with (S754_zero false).
    destruct (Prim2SF (dt p)) as [[]| | |]; try discriminate; reflexivity. }
  specialize (IH _ E').
  destruct (iterate p fuel (advance p st)) as [rest exited]. exact IH.
Qed.

End Loop.

(** * Invariants of the simulation *)

Section Invariants.

Variable p : Params.

Lemma removal_percent_snapshot st :
  removal_percent (snapshot_of p st)
  = removal_of (st_C_G_aq st + theta p * st_C_G_s st) (C_total_0 p).
Proof. reflexivity. Qed.

(** *** Without biomass *)



(** *** Without degradation and without sorption *)

Lemma frozen_step c0 c z :
  (0 <=? c0) = true -> zero_or_nan z = true -> frozen c0 c ->
  frozen c0 (JS.Math_max 0 (c + z)).
Proof.
  intros H0 Hz [Hc|Hc].
  - unfold zero_or_nan in Hz. apply orb_true_iff in Hz as [Hz|Hz].
    + left. rewrite (clamp_same_number (c + z) c0).
      * now apply clamp_nonneg.
      * eapply same_number_trans; [now apply add_zero_r | exact Hc].
    + right. now apply clamp_nan, nan_add_r.
  - right. now apply clamp_nan, nan_add_l.
Qed.

Hypothesis k_max_zero : is_zero (k_max p) = true.
Hypothesis k_sorp_zero : is_zero (k_sorp p) = true.
Hypothesis aq_nonneg : (0 <=? C_G_aq_0 p) = true.
Hypothesis s_nonneg : (0 <=? C_G_s_0 p) = true.

Lemma frozen_initial : frozen_state p (initial_state p).
Proof. split; left; apply same_number_refl. Qed.

Lemma frozen_advance st :
  frozen_state p st -> frozen_state p (advance p st).
Proof.
  intros [Ha Hs]. split; simpl.
  - apply frozen_step; [exact aq_nonneg | | exact Ha].
    apply zn_mul_l, zn_sub.
    + apply zn_opp, zn_mul_l, zn_mul_l, zn_of_zero, k_max_zero.
    + apply zn_mul_l, zn_of_zero, k_sorp_zero.
  - apply frozen_step; [exact s_nonneg | | exact Hs].
    apply zn_mul_l, zn_div_l, zn_mul_l, zn_of_zero, k_sorp_zero.
Qed.

Lemma frozen_snapshot st :
  finite_nonzero (C_total_0 p) = true ->
  frozen_state p st ->
  (C_G_aq (snapshot_of p st) = C_G_aq (snapshot_of p (initial_state p))
   \/ is_nan (C_G_aq (snapshot_of p st)) = true)
  /\ (removal_percent (snapshot_of p st) = 0
      \/ is_nan (removal_percent (snapshot_of p st)) = true).
Proof.
  intros Hfin [Ha Hs]. split.
  - destruct Ha as [Ha|Ha].
    + left. simpl. now apply clamp_same_number.
    + right. simpl. now apply clamp_nan.
  - rewrite removal_percent_snapshot.
    destruct Ha as [Ha|Ha]; [|right; now apply removal_nan_num, nan_add_l].
    destruct Hs as [Hs|Hs];
      [|right; now apply removal_nan_num, nan_add_r, nan_mul_r].
    left.
    assert (E : st_C_G_aq st + theta p * st_C_G_s st = C_total_0 p).
    { apply same_number_nonzero.
      - apply same_number_add; [exact Ha|]. now apply same_number_mul_r.
      - unfold finite_nonzero in Hfin.
        apply andb_true_iff in Hfin as [_ Hz].
        now apply negb_true_iff in Hz. }
    rewrite E. now apply removal_self.
Qed.

End Invariants.

Section ZeroMass.

Variable p : Params.

(** *** Without contaminant *)

Lemma no_mass_advance st : no_mass_state st -> no_mass_state (advance p st).
Proof.
  intros [Ha Hs].
  assert (Hsorp : zero_or_nan
            (k_sorp p * (st_C_G_aq st - st_C_G_s st / K_d p)) = true).
  { apply zn_mul_r, zn_sub; [exact Ha | now apply zn_div_l]. }
  split; simpl; apply zn_clamp; auto 8 with absorb.
Qed.

Lemma no_mass_snapshot st :
  zero_or_nan (C_total_0 p) = true -> no_mass_state st ->
  is_nan (removal_percent (snapshot_of p st)) = true.
Proof.
  intros H0 [Ha Hs]. rewrite removal_percent_snapshot.
  apply removal_zn; [|exact H0].
  apply zn_add; [exact Ha | now apply zn_mul_r].
Qed.

End ZeroMass.

(** * The lookups of [calculateMetrics] *)

Section Lookups.

Variable f : Snapshot -> bool.

Lemma find_first_match l r : JS.find f l = Some r -> first_match f l r.
Proof.
  unfold JS.find. induction l as [|a l IH]; simpl; [discriminate|].
  destruct (f a) eqn:Fa.
  - intros [= <-]. exists 0%nat. repeat split; auto. intros j r' Hj. lia.
  - intros H. destruct (IH H) as (i & Hi & Hr & Hbefore).
    exists (S i). repeat split; auto.
    intros [|j] r' Hj; simpl.
    + now intros [= <-].
    + apply Hbefore. lia.
Qed.

Lemma find_no_match l : JS.find f l = None -> no_match f l.
Proof. intros H r Hin. exact (find_none f l H r Hin). Qed.

Lemma first_match_unique l r r' :
  first_match f l r -> first_match f l r' -> r = r'.
Proof.
  intros (i & Hi & Hr & Hbi) (j & Hj & Hr' & Hbj).
  destruct (Nat.lt_trichotomy i j) as [Lt|[->|Gt]].
  - rewrite (Hbj i r Lt Hi) in Hr. discriminate.
  - congruence.
  - rewrite (Hbi j r' Gt Hj) in Hr'. discriminate.
Qed.

Lemma or_else_chosen (fallback : list Snapshot -> Snapshot -> Prop)
  (alt : option Snapshot) l r :
  (forall x, alt = Some x -> fallback l x) ->
  JS.or_else (JS.find f l) alt = Some r -> chosen_by f fallback l r.
Proof.
  intros Halt. unfold JS.or_else.
  destruct (JS.find f l) as [x|] eqn:E.
  - intros [= <-]. left. now apply find_first_match.
  - intros H. right. split; [now apply find_no_match | now apply Halt].
Qed.

End Lookups.

Lemma index_first (l : list Snapshot) r : JS.index l 0 = Some r -> first_snapshot l r.
Proof. destruct l as [|a l]; simpl; [discriminate|]. intros [= <-]. now exists l. Qed.

Lemma index_last_last (l : list Snapshot) r : JS.index_last l = Some r -> last_snapshot l r.
Proof.
  unfold JS.index_last. destruct l as [|a l]; [discriminate|].
  assert (Hne : a :: l <> []) by discriminate.
  destruct (exists_last Hne) as (init & z & E). rewrite E.
  rewrite length_app. simpl length. rewrite Nat.add_1_r.
  rewrite nth_error_app2 by lia. rewrite Nat.sub_diag. simpl.
  intros [= <-]. now exists init.
Qed.

Lemma index_last_nonempty (a : Snapshot) l : exists r, JS.index_last (a :: l) = Some r.
Proof.
  unfold JS.index_last. simpl length.
  destruct (nth_error (a :: l) (length l)) as [r|] eqn:E; [now exists r|].
  apply nth_error_None in E. simpl in E. lia.
Qed.

Lemma reduce_max_nonempty field a l :
  exists x, reduce_max field (a :: l) = Normal (Some x).
Proof.
  unfold reduce_max. change (JS.index (a :: l) 0) with (Some a).
  generalize (a :: l) as l'. generalize a as acc.
  intros acc l'. revert acc.
  induction l' as [|r l' IH]; intros acc; simpl.
  - now exists acc.
  - destruct (JS.gt (field r) (field acc)); apply IH.
Qed.

Lemma day_point_nonempty target alt l :
  (exists x, alt = Some x) ->
  exists r, JS.or_else (JS.find (near_day target) l) alt = Some r.
Proof.
  intros [x ->]. unfold JS.or_else.
  destruct (JS.find (near_day target) l) as [y|]; eauto.
Qed.

(** On a non-empty trajectory no property read fails, and the summary is
    built from the snapshots chosen by the lookups. *)
Lemma calculateMetrics_nonempty results :
  results <> [] ->
  exists d3 d7 d14 xm ap lst,
    day3_point results = Some d3 /\
    day7_point results = Some d7 /\
    day14_point results = Some d14 /\
    JS.index_last results = Some lst /\
    calculateMetrics results =
    Normal {| removal_day3 := removal_percent d3;
              removal_day7 := removal_percent d7;
              removal_day14 := removal_percent d14;
              C_G_aq_day3 := C_G_aq d3;
              C_G_aq_day7 := C_G_aq d7;
              C_G_aq_day14 := C_G_aq d14;
              X_max := X xm;
              t_X_max := time_days xm;
              X_final := X lst;
              C_A_peak := C_A_aq ap;
              t_A_peak := time_days ap;
              T90 := match T90_point results with
                     | Some r => Some (time_days r)
                     | None => None
                     end;
              final_removal := removal_percent lst |}.
Proof.
  destruct results as [|a l]; [congruence|]. intros _.
  destruct (index_last_nonempty a l) as [lst Hlst].
  destruct (day_point_nonempty 3 (JS.index (a :: l) 0) (a :: l)) as [d3 H3];
    [now exists a|].
  destruct (day_point_nonempty 7 (JS.index (a :: l) 0) (a :: l)) as [d7 H7];
    [now exists a|].
  destruct (day_point_nonempty 14 (JS.index_last (a :: l)) (a :: l))
    as [d14 H14]; [now exists lst|].
  destruct (reduce_max_nonempty X a l) as [xm Hxm].
  destruct (reduce_max_nonempty C_A_aq a l) as [ap Hap].
  exists d3, d7, d14, xm, ap, lst.
  repeat (split; [assumption|]).
  unfold calculateMetrics, day3_point, day7_point, day14_point.
  rewrite Hxm, Hap, H3, H7, H14, Hlst. reflexivity.
Qed.

(** * The claims of the specification *)

(** ** Metrics extractor *)

(** C1 (as stated): every one of the day-3, day-7 and day-14 lookups falls
    back to the first snapshot when no snapshot is within 0.1 day of its
    target.  Refuted on the default parameters with a one-day horizon: no
    snapshot is near day 14, yet the day-14 metrics are those of the last
    snapshot, which differ from those of the first. *)
Lemma day14_fallback_is_last_snapshot :
  exists results first last m,
    runSimulation one_day_run 100 = Some results /\
    hd_error results = Some first /\
    JS.index_last results = Some last /\
    forallb (fun r => negb (near_day 14 r)) results = true /\
    calculateMetrics results = Normal m /\
    removal_day14 m = removal_percent last /\
    (removal_day14 m =? removal_percent first) = false /\
    (C_G_aq_day14 m =? C_G_aq first) = false.
Proof.
  eexists _, _, _, _.
  split; [vm_compute; reflexivity|].
  repeat split; vm_compute; reflexivity.
Qed.

(** C1 (amended): on a non-empty trajectory each lookup picks the first
    snapshot, in trajectory order, whose [time_days] is within 0.1 of the
    target ([Math.abs(r.time_days - target) < 0.1]); when there is none, the
    day-3 and the day-7 lookups fall back to the first snapshot and the
    day-14 lookup falls back to the last snapshot.  The removal and the
    residual concentration reported for each day are those of the snapshot
    picked. *)
Theorem day_lookups results :
  results <> [] ->
  exists m d3 d7 d14,
    calculateMetrics results = Normal m /\
    chosen_by (near_day 3) first_snapshot results d3 /\
    chosen_by (near_day 7) first_snapshot results d7 /\
    chosen_by (near_day 14) last_snapshot results d14 /\
    removal_day3 m = removal_percent d3 /\ C_G_aq_day3 m = C_G_aq d3 /\
    removal_day7 m = removal_percent d7 /\ C_G_aq_day7 m = C_G_aq d7 /\
    removal_day14 m = removal_percent d14 /\ C_G_aq_day14 m = C_G_aq d14.
Proof.
  intros Hne.
  destruct (calculateMetrics_nonempty results Hne)
    as (d3 & d7 & d14 & xm & ap & lst & H3 & H7 & H14 & Hlst & Hm).
  eexists _, d3, d7, d14. split; [exact Hm|].
  split; [|split; [|split]].
  - eapply or_else_chosen; [|exact H3]. apply index_first.
  - eapply or_else_chosen; [|exact H7]. apply index_first.
  - eapply or_else_chosen; [|exact H14]. apply index_last_last.
  - repeat split.
Qed.

Lemma day_lookups_witness :
  emitted one_day_run 3 <> [] /\
  exists m d3 d7 d14,
    calculateMetrics (emitted one_day_run 3) = Normal m /\
    chosen_by (near_day 3) first_snapshot (emitted one_day_run 3) d3 /\
    chosen_by (near_day 7) first_snapshot (emitted one_day_run 3) d7 /\
    chosen_by (near_day 14) last_snapshot (emitted one_day_run 3) d14 /\
    removal_day3 m = removal_percent d3 /\ C_G_aq_day3 m = C_G_aq d3 /\
    removal_day7 m = removal_percent d7 /\ C_G_aq_day7 m = C_G_aq d7 /\
    removal_day14 m = removal_percent d14 /\ C_G_aq_day14 m = C_G_aq d14.
Proof.
  split; [vm_compute; discriminate|].
  apply (day_lookups (emitted one_day_run 3)). vm_compute; discriminate.
Defined.

(** C7: on a non-empty trajectory [calculateMetrics] returns a summary whose
    [T90] is the [time_days] of the first snapshot, in trajectory order, with
    [removal_percent >= 90], and [null] ([None]) when no snapshot has
    [removal_percent >= 90]. *)
Theorem T90_first_crossing results :
  results <> [] ->
  exists m,
    calculateMetrics results = Normal m /\
    ((exists r, first_match reached_90 results r
                /\ T90 m = Some (time_days r))
     \/ (no_match reached_90 results /\ T90 m = None)).
Proof.
  intros Hne.
  destruct (calculateMetrics_nonempty results Hne)
    as (d3 & d7 & d14 & xm & ap & lst & _ & _ & _ & _ & Hm).
  eexists. split; [exact Hm|]. simpl. unfold T90_point.
  destruct (JS.find reached_90 results) as [r|] eqn:E.
  - left. exists r. split; [now apply find_first_match | reflexivity].
  - right. split; [now apply find_no_match | reflexivity].
Qed.

Lemma T90_first_crossing_witness :
  emitted DEFAULT_PARAMS 674 <> [] /\
  exists m,
    calculateMetrics (emitted DEFAULT_PARAMS 674) = Normal m /\
    ((exists r, first_match reached_90 (emitted DEFAULT_PARAMS 674) r
                /\ T90 m = Some (time_days r))
     \/ (no_match reached_90 (emitted DEFAULT_PARAMS 674) /\ T90 m = None)).
Proof.
  split; [vm_compute; discriminate|].
  apply (T90_first_crossing (emitted DEFAULT_PARAMS 674)).
  vm_compute; discriminate.
Defined.

(** C9: [calculateMetrics] requires a non-empty trajectory.  Applied to a
    trajectory with zero snapshots it raises an error (the [TypeError] of
    reading [removal_percent] of [undefined]) instead of returning a summary;
    applied to any other trajectory it returns a summary. *)
Theorem calculateMetrics_empty :
  calculateMetrics [] = Throw TypeError
  /\ forall a l, exists m, calculateMetrics (a :: l) = Normal m.
Proof.
  split; [reflexivity|]. intros a l.
  destruct (calculateMetrics_nonempty (a :: l))
    as (d3 & d7 & d14 & xm & ap & lst & _ & _ & _ & _ & Hm);
    [discriminate|].
  eexists. exact Hm.
Qed.

(** ** Simulation engine *)

(** C2 (as stated): a parameter set with [t_final <= 0] makes [runSimulation]
    raise an invalid-parameter error and return no trajectory.  Refuted with
    [t_final = -1]: the call returns normally, with the empty trajectory. *)
Lemma negative_horizon_returns_empty :
  spec_invalid_parameter negative_horizon = true /\
  runSimulation negative_horizon 1 = Some [].
Proof. split; reflexivity. Qed.

(** C2 (amended): [runSimulation] validates nothing and raises nothing.
    With [t_final < 0] it returns the empty trajectory; with
    [0 <= t_final < dt] it returns the single snapshot of [t = 0]; with
    [dt = 0] and [t_final >= 0] the loop never exits; with [t_final >= 0] a
    negative initial aqueous concentration is accepted and recorded as 0 in
    the first snapshot. *)
Theorem runSimulation_validates_nothing p fuel :
  ((t_final p <? 0) = true -> runSimulation p (S fuel) = Some [])
  /\ ((0 <=? t_final p) = true -> (t_final p <? dt p) = true ->
      runSimulation p (S (S fuel)) = Some [snapshot_of p (initial_state p)])
  /\ ((0 <=? t_final p) = true -> is_zero (dt p) = true ->
      runSimulation p fuel = None)
  /\ ((0 <=? t_final p) = true -> (C_G_aq_0 p <? 0) = true ->
      exists first,
        hd_error (emitted p (S fuel)) = Some first /\ C_G_aq first = 0).
Proof.
  split; [|split; [|split]].
  - intros H. unfold runSimulation.
    now rewrite (negative_t_final_no_pass p fuel H).
  - intros H0 H1. unfold runSimulation.
    now rewrite (large_dt_one_pass p fuel H0 H1).
  - intros H0 Hdt. unfold runSimulation.
    pose proof (zero_dt_never_exits p Hdt H0 fuel (initial_state p) eq_refl)
      as E.
    destruct (iterate p fuel (initial_state p)) as [l exited].
    simpl in E. now rewrite E.
  - intros H0 Hneg. exists (snapshot_of p (initial_state p)). split.
    + unfold emitted. simpl. unfold loop_guard. simpl st_t. rewrite H0.
      now destruct (iterate p fuel (advance p (initial_state p))).
    + simpl. rewrite Math_max_0.
      now rewrite (ltb_not_nan_l _ _ Hneg), (ltb_not_ltb _ _ Hneg).
Qed.

Lemma runSimulation_validates_nothing_witness :
  ((t_final negative_horizon <? 0) = true /\
   runSimulation negative_horizon 1 = Some [])
  /\ ((0 <=? t_final step_beyond_horizon) = true /\
      (t_final step_beyond_horizon <? dt step_beyond_horizon) = true /\
      runSimulation step_beyond_horizon 2
      = Some [snapshot_of step_beyond_horizon
                (initial_state step_beyond_horizon)])
  /\ ((0 <=? t_final zero_step) = true /\ is_zero (dt zero_step) = true /\
      runSimulation zero_step 1000 = None)
  /\ ((0 <=? t_final negative_concentration) = true /\
      (C_G_aq_0 negative_concentration <? 0) = true /\
      exists first,
        hd_error (emitted negative_concentration 1) = Some first
        /\ C_G_aq first = 0).
Proof.
  split; [|split; [|split]].
  - split; [reflexivity|].
    exact (proj1 (runSimulation_validates_nothing negative_horizon 0)
             eq_refl).
  - split; [reflexivity|]. split; [reflexivity|].
    exact (proj1 (proj2 (runSimulation_validates_nothing
                           step_beyond_horizon 0)) eq_refl eq_refl).
  - split; [reflexivity|]. split; [reflexivity|].
    exact (proj1 (proj2 (proj2 (runSimulation_validates_nothing
                                  zero_step 1000))) eq_refl eq_refl).
  - split; [reflexivity|]. split; [reflexivity|].
    exact (proj2 (proj2 (proj2 (runSimulation_validates_nothing
                                  negative_concentration 0)))
             eq_refl eq_refl).
Defined.

(** C3: on the default parameter set the trajectory has exactly 673
    snapshots, its first snapshot has [time_h = 0] and
    [removal_percent = 0], and the removal of the last snapshot is strictly
    greater than that of the first. *)
Theorem golden_case :
  exists results first last,
    runSimulation DEFAULT_PARAMS 674 = Some results /\
    length results = 673%nat /\
    hd_error results = Some first /\
    time_h first = 0 /\
    removal_percent first = 0 /\
    JS.index_last results = Some last /\
    JS.gt (removal_percent last) (removal_percent first) = true.
Proof.
  eexists _, _, _.
  split; [vm_compute; reflexivity|].
  repeat split; vm_compute; reflexivity.
Qed.

(** C8: the trajectory returned by [runSimulation] is a function of the
    parameter set alone: two runs that return, whatever the number of passes
    granted to each, return the same trajectory, field for field. *)
Theorem runSimulation_deterministic p fuel1 fuel2 results1 results2 :
  runSimulation p fuel1 = Some results1 ->
  runSimulation p fuel2 = Some results2 ->
  results1 = results2.
Proof.
  unfold runSimulation. intros H1 H2.
  destruct (iterate p fuel1 (initial_state p)) as [l1 [|]] eqn:E1;
    [|discriminate].
  destruct (iterate p fuel2 (initial_state p)) as [l2 [|]] eqn:E2;
    [|discriminate].
  inversion H1; inversion H2; subst.
  eapply iterate_exit_unique; eassumption.
Qed.

Lemma runSimulation_deterministic_witness :
  exists results1 results2,
    runSimulation one_day_run 50 = Some results1 /\
    runSimulation one_day_run 80 = Some results2 /\
    results1 = results2.
Proof.
  eexists _, _.
  split; [vm_compute; reflexivity|].
  split; [vm_compute; reflexivity|].
  apply (runSimulation_deterministic one_day_run 50 80);
    vm_compute; reflexivity.
Defined.


(** The biomass itself does not stay 0 on every valid parameter set: on an
    unstable step configuration the concentrations overflow, the Monod factor
    becomes NaN and so does the recorded biomass. *)
Lemma no_biomass_unstable_nan :
  is_zero (X_0 no_biomass_unstable) = true /\
  spec_invalid_parameter no_biomass_unstable = false /\
  exists results last,
    runSimulation no_biomass_unstable 400 = Some results /\
    JS.index_last results = Some last /\
    is_nan (X last) = true.
Proof.
  split; [reflexivity|]. split; [reflexivity|].
  eexists _, _.
  split; [vm_compute; reflexivity|].
  split; vm_compute; reflexivity.
Qed.



(** C5 (failing input): without contaminant ([C_G_aq_0 = 0] and
    [C_G_s_0 = 0], every other parameter at its default, a parameter set the
    specification accepts) the normalisation divides 0 by 0; the first
    snapshot has a [removal_percent] that is NaN, neither [>= 0] nor
    [<= 100]: [Math.max] and [Math.min] return NaN on a NaN argument. *)
Theorem removal_unclamped_without_contaminant :
  spec_invalid_parameter no_contaminant = false /\
  exists results first,
    runSimulation no_contaminant 674 = Some results /\
    hd_error results = Some first /\
    is_nan (removal_percent first) = true /\
    JS.ge (removal_percent first) 0 = false /\
    (removal_percent first <=? 100) = false.
Proof.
  split; [reflexivity|].
  eexists _, _.
  split; [vm_compute; reflexivity|].
  repeat split; vm_compute; reflexivity.
Qed.

(** C6 (as stated): with [k_max = 0] and [k_sorp = 0] every snapshot has the
    aqueous concentration of the first one.  Refuted on a run of 300 days
    with a one-day step and [mu_max = 0.5]: the biomass overflows to
    infinity, [k_max * monod * X] becomes [0 * Infinity], and the last
    snapshot has a NaN aqueous concentration and a NaN removal. *)
Lemma no_kinetics_biomass_overflow :
  is_zero (k_max no_kinetics_long_run) = true /\
  is_zero (k_sorp no_kinetics_long_run) = true /\
  spec_invalid_parameter no_kinetics_long_run = false /\
  exists results first last,
    runSimulation no_kinetics_long_run 400 = Some results /\
    hd_error results = Some first /\
    JS.index_last results = Some last /\
    C_G_aq first = 100 /\
    is_nan (C_G_aq last) = true /\
    is_nan (removal_percent last) = true.
Proof.
  split; [reflexivity|]. split; [reflexivity|]. split; [reflexivity|].
  eexists _, _, _.
  split; [vm_compute; reflexivity|].
  repeat split; vm_compute; reflexivity.
Qed.

(** C6 (amended): with [k_max = 0], [k_sorp = 0], non-negative initial
    aqueous and sorbed concentrations and an initial total mass that is
    finite and not zero, every snapshot of the trajectory has the aqueous
    concentration of the first snapshot, unless it is NaN, and a
    [removal_percent] equal to 0, unless it is NaN (a NaN appears only after
    an intermediate value left the finite range, as when the biomass
    overflows). *)
Theorem no_degradation_no_sorption p fuel results first :
  is_zero (k_max p) = true ->
  is_zero (k_sorp p) = true ->
  (0 <=? C_G_aq_0 p) = true ->
  (0 <=? C_G_s_0 p) = true ->
  finite_nonzero (C_total_0 p) = true ->
  runSimulation p fuel = Some results ->
  hd_error results = Some first ->
  forall s, In s results ->
    (C_G_aq s = C_G_aq first \/ is_nan (C_G_aq s) = true)
    /\ (removal_percent s = 0 \/ is_nan (removal_percent s) = true).
Proof.
  intros Hk Hs Ha Hc Hfin Hrun Hhd.
  apply runSimulation_emitted in Hrun. subst results.
  unfold emitted in Hhd. apply iterate_head in Hhd. subst first.
  revert fuel.
  apply (emitted_invariant p (frozen_state p)).
  - apply frozen_initial.
  - now apply frozen_advance.
  - intros st Hst. now apply frozen_snapshot.
Qed.

Lemma no_degradation_no_sorption_witness :
  is_zero (k_max no_kinetics) = true /\
  is_zero (k_sorp no_kinetics) = true /\
  (0 <=? C_G_aq_0 no_kinetics) = true /\
  (0 <=? C_G_s_0 no_kinetics) = true /\
  finite_nonzero (C_total_0 no_kinetics) = true /\
  exists results first,
    runSimulation no_kinetics 674 = Some results /\
    hd_error results = Some first /\
    forall s, In s results ->
      (C_G_aq s = C_G_aq first \/ is_nan (C_G_aq s) = true)
      /\ (removal_percent s = 0 \/ is_nan (removal_percent s) = true).
Proof.
  repeat (split; [reflexivity|]).
  eexists _, _.
  split; [vm_compute; reflexivity|].
  split; [vm_compute; reflexivity|].
  apply (no_degradation_no_sorption no_kinetics 674);
    try reflexivity; vm_compute; reflexivity.
Defined.

(** C10 (as stated): whenever the initial total mass
    [C_G_aq_0 + theta * C_G_s_0] is zero, every emitted snapshot has a NaN
    [removal_percent].  Refuted with sorbed contaminant and [theta = 0]:
    the initial total is [0 + 0 * 5 = 0] and the first snapshot has a NaN
    removal, but desorption makes the aqueous concentration positive, so the
    second snapshot divides a positive total by zero and its removal,
    [100 * (1 - Infinity)] clamped, is the number 0. *)
Lemma zero_initial_mass_numeric_removal :
  is_zero (C_total_0 sorbed_only_no_solids) = true /\
  exists results first second,
    runSimulation sorbed_only_no_solids 674 = Some results /\
    nth_error results 0 = Some first /\
    nth_error results 1 = Some second /\
    is_nan (removal_percent first) = true /\
    is_nan (removal_percent second) = false /\
    removal_percent second = 0.
Proof.
  split; [reflexivity|].
  eexists _, _, _.
  split; [vm_compute; reflexivity|].
  repeat split; vm_compute; reflexivity.
Qed.

(** C10 (amended): only the Monod denominator is guarded.  When the initial
    total mass [C_G_aq_0 + theta * C_G_s_0] is zero, the first emitted
    snapshot has a NaN [removal_percent]; every emitted snapshot has a
    [removal_percent] that is NaN, 0 or 100, never a value in between; and
    when both [C_G_aq_0] and [C_G_s_0] are zero, every emitted snapshot has a
    NaN [removal_percent]: the clamp to [0, 100] does not replace it. *)
Theorem removal_nan_on_zero_initial_mass p fuel :
  is_zero (C_total_0 p) = true ->
  (forall first, hd_error (emitted p fuel) = Some first ->
     is_nan (removal_percent first) = true)
  /\ (forall s, In s (emitted p fuel) ->
        is_nan (removal_percent s) = true
        \/ removal_percent s = 0 \/ removal_percent s = 100)
  /\ (is_zero (C_G_aq_0 p) = true -> is_zero (C_G_s_0 p) = true ->
      forall s, In s (emitted p fuel) ->
        is_nan (removal_percent s) = true).
Proof.
  intros H0. split; [|split].
  - intros first Hhd. unfold emitted in Hhd.
    apply iterate_head in Hhd. subst first.
    rewrite removal_percent_snapshot.
    apply removal_zn; apply zn_of_zero; exact H0.
  - revert fuel.
    apply (emitted_invariant p (fun _ => True)); auto.
    intros st _. rewrite removal_percent_snapshot.
    now apply removal_zero_den.
  - intros Ha Hs. revert fuel.
    apply (emitted_invariant p no_mass_state).
    + split; simpl; now apply zn_of_zero.
    + apply no_mass_advance.
    + intros st Hst.
      apply no_mass_snapshot; [now apply zn_of_zero | exact Hst].
Qed.

Lemma removal_nan_on_zero_initial_mass_witness :
  is_zero (C_total_0 no_contaminant) = true /\
  is_zero (C_G_aq_0 no_contaminant) = true /\
  is_zero (C_G_s_0 no_contaminant) = true /\
  (forall first, hd_error (emitted no_contaminant 10) = Some first ->
     is_nan (removal_percent first) = true)
  /\ (forall s, In s (emitted no_contaminant 10) ->
        is_nan (removal_percent s) = true
        \/ removal_percent s = 0 \/ removal_percent s = 100)
  /\ (forall s, In s (emitted no_contaminant 10) ->
        is_nan (removal_percent s) = true).
Proof.
  repeat (split; [reflexivity|]).
  destruct (removal_nan_on_zero_initial_mass no_contaminant 10 eq_refl)
    as (Hfirst & Hany & Hall).
  split; [exact Hfirst|]. split; [exact Hany|].
  exact (Hall eq_refl eq_refl).
Defined.

(** * The order of binary64 numbers *)

Lemma SFltb_key x y :
  SFltb x y = true <->
  exists k k', order_key x = Some k /\ order_key y = Some k' /\ key_lt k k'.
Proof.
  unfold SFltb.
  destruct x as [sx|[]| |[] m e], y as [sy|[]| |[] m' e']; simpl;
    try (split; [discriminate | intros (k & k' & H1 & H2 & H3);
                 try discriminate;
                 injection H1 as <-; injection H2 as <-; simpl in H3; lia]);
    try (split; [intros _; eexists _, _; split; [reflexivity|];
                 split; [reflexivity|]; simpl; lia | reflexivity]).
  - (* both negative *)
    destruct (Z.compare_spec e e') as [E|E|E]; simpl.
    + subst e'. rewrite Pos.compare_cont_spec. simpl.
      destruct (Pos.compare_spec m m') as [M|M|M]; simpl;
        (split; [first [discriminate
                       | intros _; eexists _, _;
                         split; [reflexivity|]; split; [reflexivity|];
                         simpl; lia]
                | intros (k & k' & H1 & H2 & H3);
                  injection H1 as <-; injection H2 as <-; simpl in H3;
                  try reflexivity; subst; lia]).
    + split; [discriminate|].
      intros (k & k' & H1 & H2 & H3).
      injection H1 as <-; injection H2 as <-; simpl in H3. lia.
    + split; [|reflexivity]. intros _. eexists _, _.
      split; [reflexivity|]. split; [reflexivity|]. simpl. lia.
  - (* both positive *)
    destruct (Z.compare_spec e e') as [E|E|E]; simpl.
    + subst e'. rewrite Pos.compare_cont_spec. simpl.
      destruct (Pos.compare_spec m m') as [M|M|M]; simpl;
        (split; [first [discriminate
                       | intros _; eexists _, _;
                         split; [reflexivity|]; split; [reflexivity|];
                         simpl; lia]
                | intros (k & k' & H1 & H2 & H3);
                  injection H1 as <-; injection H2 as <-; simpl in H3;
                  try reflexivity; subst; lia]).
    + split; [|reflexivity]. intros _. eexists _, _.
      split; [reflexivity|]. split; [reflexivity|]. simpl. lia.
    + split; [discriminate|].
      intros (k & k' & H1 & H2 & H3).
      injection H1 as <-; injection H2 as <-; simpl in H3. lia.
Qed.

Lemma key_lt_dec_aux k k' : key_lt k k' \/ ~ key_lt k k'.
Proof.
  destruct k as [[a b] c], k' as [[a' b'] c']. simpl. lia.
Qed.

Lemma ltb_key x y :
  (x <? y) = true <->
  exists k k', order_key (Prim2SF x) = Some k
               /\ order_key (Prim2SF y) = Some k' /\ key_lt k k'.
Proof. rewrite ltb_spec. apply SFltb_key. Qed.

Lemma order_key_nan x : order_key (Prim2SF x) = None -> is_nan x = true.
Proof.
  rewrite is_nan_shape. destruct (Prim2SF x) as [|[]| |[]]; simpl;
    try discriminate; reflexivity.
Qed.

Lemma ltb_irrefl x : (x <? x) = false.
Proof.
  destruct (x <? x) eqn:E; [|reflexivity].
  apply ltb_key in E as (k & k' & H1 & H2 & H3).
  rewrite H1 in H2. injection H2 as <-.
  destruct k as [[a b] c]. simpl in H3. lia.
Qed.

(** If [m < r'] and not [m < r], then not [r' < r]: a number above the
    running maximum is above everything the maximum is not below. *)
Lemma ltb_above_max m r r' :
  (m <? r') = true -> (m <? r) = false -> (r' <? r) = false.
Proof.
  intros H1 H2. destruct (r' <? r) eqn:E; [|reflexivity].
  apply ltb_key in H1 as (km & kr' & K1 & K2 & K3).
  apply ltb_key in E as (kr'' & kr & K4 & K5 & K6).
  rewrite K2 in K4. injection K4 as <-.
  assert (C : (m <? r) = true).
  { apply ltb_key. exists km, kr. repeat split; auto.
    destruct km as [[a b] c], kr' as [[a' b'] c'], kr as [[a'' b''] c''].
    simpl in *. lia. }
  congruence.
Qed.

Lemma ltb_below_new_max m r r' :
  (m <? r') = true -> (m <? r) = false ->
  is_nan r = true \/ (r <? r') = true.
Proof.
  intros H1 H2.
  destruct (order_key (Prim2SF r)) as [kr|] eqn:Kr;
    [|left; now apply order_key_nan].
  right.
  apply ltb_key in H1 as (km & kr' & K1 & K2 & K3).
  apply ltb_key. exists kr, kr'. repeat split; auto.
  destruct (key_lt_dec_aux km kr) as [L|L].
  - exfalso. assert (C : (m <? r) = true)
      by (apply ltb_key; exists km, kr; auto). congruence.
  - destruct km as [[a b] c], kr' as [[a' b'] c'], kr as [[a'' b''] c''].
    simpl in *. lia.
Qed.

(** * More about the simulation engine *)

Lemma nan_sub_l x y : is_nan x = true -> is_nan (x - y) = true.
Proof.
  to_shapes. destruct (Prim2SF x); try discriminate; reflexivity.
Qed.

Lemma nan_opp x : is_nan x = true -> is_nan (- x) = true.
Proof.
  to_shapes. destruct (Prim2SF x); try discriminate; reflexivity.
Qed.

Lemma clamp_nan_inv x : is_nan (JS.Math_max 0 x) = true -> is_nan x = true.
Proof.
  rewrite Math_max_0. destruct (is_nan x) eqn:N; [reflexivity|].
  destruct (0 <? x); [congruence | discriminate].
Qed.

Create HintDb poison discriminated.
#[local] Hint Resolve nan_add_l nan_add_r nan_mul_l nan_mul_r nan_div_l
  nan_sub_l nan_sub_r nan_opp clamp_nan : poison.

(** The snapshots recorded after a given one are those of the loop resumed
    from the next state. *)
Lemma iterate_split p :
  forall fuel st pre s post,
    fst (iterate p fuel st) = pre ++ s :: post ->
    exists fuel' st',
      s = snapshot_of p st' /\ post = fst (iterate p fuel' (advance p st')).
Proof.
  induction fuel as [|fuel IH]; intros st pre s post H.
  - simpl in H. now destruct pre.
  - simpl in H. destruct (loop_guard p st); [|now destruct pre].
    destruct (iterate p fuel (advance p st)) as [rest exited] eqn:E.
    simpl in H. destruct pre as [|a pre]; simpl in H.
    + injection H as <- <-. exists fuel, st. now rewrite E.
    + injection H as _ H. apply (IH (advance p st) pre s post).
      now rewrite E.
Qed.

(** X1. Every recorded concentration is [>= 0] and every recorded removal
    is within [0, 100], unless the field is NaN: the clamps of the snapshot
    let nothing else through. *)
Theorem recorded_fields_bounded p fuel s :
  In s (emitted p fuel) ->
  (is_nan (C_G_aq s) = true \/ JS.ge (C_G_aq s) 0 = true)
  /\ (is_nan (C_G_s s) = true \/ JS.ge (C_G_s s) 0 = true)
  /\ (is_nan (C_A_aq s) = true \/ JS.ge (C_A_aq s) 0 = true)
  /\ (is_nan (X s) = true \/ JS.ge (X s) 0 = true)
  /\ (is_nan (C_total s) = true \/ JS.ge (C_total s) 0 = true)
  /\ (is_nan (removal_percent s) = true
      \/ (JS.ge (removal_percent s) 0 = true
          /\ (removal_percent s <=? 100) = true)).
Proof.
  revert fuel s.
  apply (emitted_invariant p (fun _ => True)); auto.
  intros st _. unfold JS.ge.
  repeat split; try apply clamp_range.
  rewrite removal_percent_snapshot. apply removal_range.
Qed.

Lemma recorded_fields_bounded_witness :
  exists s,
    In s (emitted DEFAULT_PARAMS 3) /\
    (is_nan (C_G_aq s) = true \/ JS.ge (C_G_aq s) 0 = true)
    /\ (is_nan (C_G_s s) = true \/ JS.ge (C_G_s s) 0 = true)
    /\ (is_nan (C_A_aq s) = true \/ JS.ge (C_A_aq s) 0 = true)
    /\ (is_nan (X s) = true \/ JS.ge (X s) 0 = true)
    /\ (is_nan (C_total s) = true \/ JS.ge (C_total s) 0 = true)
    /\ (is_nan (removal_percent s) = true
        \/ (JS.ge (removal_percent s) 0 = true
            /\ (removal_percent s <=? 100) = true)).
Proof.
  exists (snapshot_of DEFAULT_PARAMS (initial_state DEFAULT_PARAMS)).
  assert (H : In (snapshot_of DEFAULT_PARAMS (initial_state DEFAULT_PARAMS))
                (emitted DEFAULT_PARAMS 3)) by (left; reflexivity).
  split; [exact H|].
  exact (recorded_fields_bounded DEFAULT_PARAMS 3 _ H).
Defined.

Lemma empty_iff_guard_fails p fuel results :
  runSimulation p fuel = Some results ->
  results = [] <-> (0 <=? t_final p) = false.
Proof.
  unfold runSimulation. intros Hrun. destruct fuel as [|fuel]; [discriminate|].
  simpl in Hrun. unfold loop_guard in Hrun. simpl st_t in Hrun.
  destruct (0 <=? t_final p).
  - destruct (iterate p fuel (advance p (initial_state p))) as [rest []];
      [|discriminate].
    injection Hrun as <-. split; discriminate.
  - injection Hrun as <-. split; reflexivity.
Qed.

(** X2. The trajectory returned is empty exactly when [0 <= t_final] fails
    ([t_final] negative or NaN); otherwise it starts with the snapshot of the
    initial conditions, at [time_h = 0] and [time_days = 0], and when the
    initial total mass is finite and not zero that snapshot has
    [removal_percent = 0] and [C_total] equal to the initial total mass
    clamped at 0. *)
Theorem trajectory_start p fuel results :
  runSimulation p fuel = Some results ->
  (results = [] <-> (0 <=? t_final p) = false)
  /\ forall first, hd_error results = Some first ->
       first = snapshot_of p (initial_state p)
       /\ time_h first = 0 /\ time_days first = 0
       /\ C_total first = JS.Math_max 0 (C_total_0 p)
       /\ (finite_nonzero (C_total_0 p) = true -> removal_percent first = 0).
Proof.
  intros Hrun. apply runSimulation_emitted in Hrun as Hem.
  split; [now apply (empty_iff_guard_fails p fuel)|].
  intros first Hhd. subst results. unfold emitted in Hhd.
  apply iterate_head in Hhd. subst first.
  repeat split.
  intros Hfin. rewrite removal_percent_snapshot. now apply removal_self.
Qed.

Lemma trajectory_start_witness :
  exists results,
    runSimulation one_day_run 50 = Some results /\
    (results = [] <-> (0 <=? t_final one_day_run) = false)
    /\ forall first, hd_error results = Some first ->
         first = snapshot_of one_day_run (initial_state one_day_run)
         /\ time_h first = 0 /\ time_days first = 0
         /\ C_total first = JS.Math_max 0 (C_total_0 one_day_run)
         /\ (finite_nonzero (C_total_0 one_day_run) = true ->
             removal_percent first = 0).
Proof.
  eexists. split; [vm_compute; reflexivity|].
  apply (trajectory_start one_day_run 50). vm_compute; reflexivity.
Defined.

(** The time variable evolves on its own: runs with the same horizon and
    step visit the same times. *)
Lemma iterate_times p q :
  t_final p = t_final q -> dt p = dt q ->
  forall fuel st st', st_t st = st_t st' ->
    map time_h (fst (iterate p fuel st)) = map time_h (fst (iterate q fuel st'))
    /\ snd (iterate p fuel st) = snd (iterate q fuel st').
Proof.
  intros Ht Hd. induction fuel as [|fuel IH]; intros st st' E; [now split|].
  simpl. unfold loop_guard. rewrite E, Ht.
  destruct (st_t st' <=? t_final q); [|now split].
  assert (E' : st_t (advance p st) = st_t (advance q st'))
    by (simpl; now rewrite E, Hd).
  destruct (IH _ _ E') as [IH1 IH2].
  destruct (iterate p fuel (advance p st)) as [r1 e1].
  destruct (iterate q fuel (advance q st')) as [r2 e2].
  simpl in *. split; [|exact IH2]. now rewrite E, IH1.
Qed.

Lemma run_times_transfer p q fuel results :
  t_final p = t_final q -> dt p = dt q ->
  runSimulation p fuel = Some results ->
  exists results',
    runSimulation q fuel = Some results'
    /\ map time_h results' = map time_h results
    /\ length results' = length results.
Proof.
  intros Ht Hd Hrun.
  destruct (iterate_times p q Ht Hd fuel (initial_state p) (initial_state q)
              eq_refl) as [Hm He].
  unfold runSimulation in *.
  destruct (iterate p fuel (initial_state p)) as [r1 e1].
  destruct (iterate q fuel (initial_state q)) as [r2 e2].
  simpl in *. subst e2. destruct e1; [|discriminate].
  injection Hrun as <-. exists r2. split; [reflexivity|].
  split; [now symmetry|].
  rewrite <- (length_map time_h r2), <- (length_map time_h r1).
  now rewrite Hm.
Qed.

(** X3. The time stamps and the number of snapshots depend on [t_final] and
    [dt] only: two parameter sets with the same horizon and the same step
    record the same times, and one run returns exactly when the other does,
    whatever the kinetic parameters and the initial concentrations. *)
Theorem time_grid_independent p q fuel results :
  t_final p = t_final q -> dt p = dt q ->
  runSimulation p fuel = Some results ->
  exists results',
    runSimulation q fuel = Some results'
    /\ map time_h results' = map time_h results
    /\ length results' = length results.
Proof. apply run_times_transfer. Qed.

Lemma time_grid_independent_witness :
  t_final no_biomass = t_final no_kinetics /\
  dt no_biomass = dt no_kinetics /\
  exists results results',
    runSimulation no_biomass 674 = Some results /\
    runSimulation no_kinetics 674 = Some results'
    /\ map time_h results' = map time_h results
    /\ length results' = length results.
Proof.
  split; [reflexivity|]. split; [reflexivity|].
  eexists. 
  assert (R : runSimulation no_biomass 674 = Some (emitted no_biomass 674))
    by (vm_compute; reflexivity).
  destruct (time_grid_independent no_biomass no_kinetics 674 _
              eq_refl eq_refl R) as (r' & H1 & H2 & H3).
  exists r'. split; [exact R|]. repeat split; assumption.
Defined.

(** After a NaN aqueous concentration the four variables are NaN, and
    stay so. *)
Lemma poisoned_after p st :
  is_nan (st_C_G_aq st) = true -> poisoned (advance p st).
Proof.
  intros H. unfold poisoned. simpl.
  repeat split; apply clamp_nan; auto 10 with poison.
Qed.

Lemma poisoned_snapshot p st :
  poisoned st ->
  let s := snapshot_of p st in
  is_nan (C_G_aq s) = true /\ is_nan (C_G_s s) = true
  /\ is_nan (C_A_aq s) = true /\ is_nan (X s) = true
  /\ is_nan (C_total s) = true /\ is_nan (removal_percent s) = true.
Proof.
  intros (Ha & Hs & Hm & Hx). simpl.
  repeat split; try (apply clamp_nan; auto with poison).
  apply (removal_nan_num _ (C_total_0 p)). auto with poison.
Qed.

(** X4. NaN never heals.  Once a snapshot has a NaN aqueous concentration,
    every later snapshot has NaN in all four concentrations, in the total and
    in the removal percentage. *)
Theorem nan_never_heals p fuel pre s post :
  emitted p fuel = pre ++ s :: post ->
  is_nan (C_G_aq s) = true ->
  forall s', In s' post ->
    is_nan (C_G_aq s') = true /\ is_nan (C_G_s s') = true
    /\ is_nan (C_A_aq s') = true /\ is_nan (X s') = true
    /\ is_nan (C_total s') = true /\ is_nan (removal_percent s') = true.
Proof.
  intros Hem Hnan. unfold emitted in Hem.
  destruct (iterate_split p fuel _ pre s post Hem) as (fuel' & st' & -> & ->).
  simpl in Hnan. apply clamp_nan_inv in Hnan.
  apply (iterate_invariant p poisoned).
  - intros st (Ha & _). now apply poisoned_after.
  - intros st Hst. now apply poisoned_snapshot.
  - now apply poisoned_after.
Qed.

Lemma nan_never_heals_witness :
  exists pre s post,
    emitted no_kinetics_long_run 301 = pre ++ s :: post /\
    is_nan (C_G_aq s) = true /\
    post <> [] /\
    forall s', In s' post ->
      is_nan (C_G_aq s') = true /\ is_nan (C_G_s s') = true
      /\ is_nan (C_A_aq s') = true /\ is_nan (X s') = true
      /\ is_nan (C_total s') = true /\ is_nan (removal_percent s') = true.
Proof.
  exists (firstn 298 (emitted no_kinetics_long_run 301)).
  eexists. exists (skipn 299 (emitted no_kinetics_long_run 301)).
  assert (E : emitted no_kinetics_long_run 301
              = firstn 298 (emitted no_kinetics_long_run 301)
                ++ nth 298 (emitted no_kinetics_long_run 301)
                     (snapshot_of DEFAULT_PARAMS (initial_state DEFAULT_PARAMS))
                :: skipn 299 (emitted no_kinetics_long_run 301))
    by (vm_compute; reflexivity).
  assert (N : is_nan (C_G_aq (nth 298 (emitted no_kinetics_long_run 301)
                (snapshot_of DEFAULT_PARAMS (initial_state DEFAULT_PARAMS))))
              = true) by (vm_compute; reflexivity).
  split; [exact E|]. split; [exact N|].
  split; [vm_compute; discriminate|].
  exact (nan_never_heals no_kinetics_long_run 301 _ _ _ E N).
Defined.

(** X5. Without sorption ([k_sorp = 0]) and with a non-negative initial
    sorbed concentration, the sorbed concentration never changes: every
    snapshot has the [C_G_s] of the first one, unless it is NaN, and a
    sorption rate that is zero, unless it is NaN. *)
Theorem no_sorption_sorbed_constant p fuel s :
  is_zero (k_sorp p) = true ->
  (0 <=? C_G_s_0 p) = true ->
  In s (emitted p fuel) ->
  (C_G_s s = JS.Math_max 0 (C_G_s_0 p) \/ is_nan (C_G_s s) = true)
  /\ (is_zero (r_sorption s) = true \/ is_nan (r_sorption s) = true).
Proof.
  intros Hk H0. revert fuel s.
  apply (emitted_invariant p (fun st => frozen (C_G_s_0 p) (st_C_G_s st))).
  - left. apply same_number_refl.
  - intros st Hst. simpl. apply frozen_step; auto with absorb.
  - intros st Hst. split.
    + destruct Hst as [Hst|Hst]; simpl.
      * left. now apply clamp_same_number.
      * right. now apply clamp_nan.
    + simpl. apply orb_true_iff. fold (zero_or_nan
        (k_sorp p * (st_C_G_aq st - st_C_G_s st / K_d p))).
      auto with absorb.
Qed.

Lemma no_sorption_sorbed_constant_witness :
  is_zero (k_sorp no_kinetics) = true /\
  (0 <=? C_G_s_0 no_kinetics) = true /\
  exists s,
    In s (emitted no_kinetics 3) /\
    (C_G_s s = JS.Math_max 0 (C_G_s_0 no_kinetics)
     \/ is_nan (C_G_s s) = true)
    /\ (is_zero (r_sorption s) = true \/ is_nan (r_sorption s) = true).
Proof.
  split; [reflexivity|]. split; [reflexivity|].
  exists (snapshot_of no_kinetics (initial_state no_kinetics)).
  assert (H : In (snapshot_of no_kinetics (initial_state no_kinetics))
                (emitted no_kinetics 3)) by (left; reflexivity).
  split; [exact H|].
  exact (no_sorption_sorbed_constant no_kinetics 3 _ eq_refl eq_refl H).
Defined.

(** X6. No metabolite without formation: when the initial AMPA
    concentration is zero and either the yield [Y_A] or the degradation
    constant [k_max] is zero, every snapshot has [C_A_aq = 0], unless it is
    NaN. *)
Theorem no_metabolite_without_formation p fuel s :
  is_zero (C_A_aq_0 p) = true ->
  is_zero (Y_A p) = true \/ is_zero (k_max p) = true ->
  In s (emitted p fuel) ->
  C_A_aq s = 0 \/ is_nan (C_A_aq s) = true.
Proof.
  intros H0 Hy. revert fuel s.
  apply (emitted_invariant p (fun st => zero_or_nan (st_C_A_aq st) = true)).
  - simpl. now apply zn_of_zero.
  - intros st Hst. simpl. apply zn_clamp, zn_add; [exact Hst|].
    apply zn_mul_l, zn_sub; [|auto with absorb].
    destruct Hy as [Hy|Hy]; auto 6 with absorb.
  - intros st Hst. simpl. now apply clamp_zn.
Qed.

Lemma no_metabolite_without_formation_witness :
  is_zero (C_A_aq_0 no_kinetics) = true /\
  (is_zero (Y_A no_kinetics) = true \/ is_zero (k_max no_kinetics) = true) /\
  exists s,
    In s (emitted no_kinetics 3) /\
    (C_A_aq s = 0 \/ is_nan (C_A_aq s) = true).
Proof.
  split; [reflexivity|]. split; [right; reflexivity|].
  exists (snapshot_of no_kinetics (initial_state no_kinetics)).
  assert (H : In (snapshot_of no_kinetics (initial_state no_kinetics))
                (emitted no_kinetics 3)) by (left; reflexivity).
  split; [exact H|].
  exact (no_metabolite_without_formation no_kinetics 3 _ eq_refl
           (or_intror eq_refl) H).
Defined.

(** * More about the metrics extractor *)

(** The scan of [reduce_max]: the running maximum after a prefix [pre] is the
    peak of the prefix. *)
Lemma reduce_scan (field : Snapshot -> float) :
  forall l pre m i,
    nth_error (pre ++ l) i = Some m ->
    (forall r, In r pre -> JS.gt (field r) (field m) = false) ->
    (forall j r, (j < i)%nat -> nth_error (pre ++ l) j = Some r ->
       is_nan (field r) = true \/ JS.gt (field m) (field r) = true) ->
    exists x,
      fold_left
        (fun acc r =>
           max <- acc ;;
           v <- read max field ;;
           Normal (if JS.gt (field r) v then Some r else max))
        l (Normal (Some m)) = Normal (Some x)
      /\ peak_of field (pre ++ l) x.
Proof.
  induction l as [|r l IH]; intros pre m i Hi HA HB.
  - exists m. split; [reflexivity|]. exists i.
    split; [exact Hi|]. split; [|exact HB].
    intros r Hr. rewrite app_nil_r in Hr. now apply HA.
  - simpl fold_left. simpl bind.
    replace (pre ++ r :: l) with ((pre ++ [r]) ++ l) in *
      by (rewrite <- app_assoc; reflexivity).
    destruct (JS.gt (field r) (field m)) eqn:G.
    + apply (IH (pre ++ [r]) r (length pre)).
      * rewrite <- app_assoc. rewrite nth_error_app2 by lia.
        now rewrite Nat.sub_diag.
      * intros r' Hr'. apply in_app_or in Hr' as [Hr'|[<-|[]]].
        -- unfold JS.gt in *.
           apply (ltb_above_max (field m)); [exact G | now apply HA].
        -- unfold JS.gt. apply ltb_irrefl.
      * intros j r' Hj Hn.
        rewrite <- app_assoc in Hn. rewrite nth_error_app1 in Hn by exact Hj.
        apply nth_error_In in Hn. unfold JS.gt in *.
        apply (ltb_below_new_max (field m)); [exact G | now apply HA].
    + apply (IH (pre ++ [r]) m i); auto.
      intros r' Hr'. apply in_app_or in Hr' as [Hr'|[<-|[]]]; auto.
Qed.

Lemma reduce_max_peak field a l :
  exists x,
    reduce_max field (a :: l) = Normal (Some x)
    /\ peak_of field (a :: l) x.
Proof.
  unfold reduce_max. change (JS.index (a :: l) 0) with (Some a).
  apply (reduce_scan field (a :: l) [] a 0%nat).
  - reflexivity.
  - intros r [].
  - intros j r Hj. lia.
Qed.

Lemma find_none_of_no_match (f : Snapshot -> bool) l :
  no_match f l -> JS.find f l = None.
Proof.
  unfold JS.find. induction l as [|a l IH]; intros H; [reflexivity|].
  simpl. rewrite (H a (or_introl eq_refl)). apply IH.
  intros r Hr. apply H. now right.
Qed.

(** X7. On a non-empty trajectory the peak biomass [X_max] and the peak
    metabolite [C_A_peak] are the values of the first snapshot that attains
    the maximum: no snapshot has a larger value, every earlier snapshot has
    a smaller one (or a NaN), and [t_X_max] and [t_A_peak] are the
    [time_days] of those snapshots. *)
Theorem peaks_are_first_maxima results :
  results <> [] ->
  exists m xm ap,
    calculateMetrics results = Normal m /\
    peak_of X results xm /\
    X_max m = X xm /\ t_X_max m = time_days xm /\
    peak_of C_A_aq results ap /\
    C_A_peak m = C_A_aq ap /\ t_A_peak m = time_days ap.
Proof.
  destruct results as [|a l]; [congruence|]. intros _.
  destruct (index_last_nonempty a l) as [lst Hlst].
  destruct (day_point_nonempty 3 (JS.index (a :: l) 0) (a :: l)) as [d3 H3];
    [now exists a|].
  destruct (day_point_nonempty 7 (JS.index (a :: l) 0) (a :: l)) as [d7 H7];
    [now exists a|].
  destruct (day_point_nonempty 14 (JS.index_last (a :: l)) (a :: l))
    as [d14 H14]; [now exists lst|].
  destruct (reduce_max_peak X a l) as (xm & Hxm & Pxm).
  destruct (reduce_max_peak C_A_aq a l) as (ap & Hap & Pap).
  eexists _, xm, ap.
  unfold calculateMetrics, day3_point, day7_point, day14_point.
  rewrite Hxm, Hap, H3, H7, H14, Hlst. simpl.
  split; [reflexivity|]. repeat split; assumption.
Qed.

Lemma peaks_are_first_maxima_witness :
  emitted one_day_run 49 <> [] /\
  exists m xm ap,
    calculateMetrics (emitted one_day_run 49) = Normal m /\
    peak_of X (emitted one_day_run 49) xm /\
    X_max m = X xm /\ t_X_max m = time_days xm /\
    peak_of C_A_aq (emitted one_day_run 49) ap /\
    C_A_peak m = C_A_aq ap /\ t_A_peak m = time_days ap.
Proof.
  split; [vm_compute; discriminate|].
  apply (peaks_are_first_maxima (emitted one_day_run 49)).
  vm_compute; discriminate.
Defined.

(** X8. On a non-empty trajectory [X_final] and [final_removal] are the
    biomass and the removal of the last snapshot, and when no snapshot is
    within 0.1 day of day 14 the day-14 removal is the final removal. *)
Theorem final_metrics results :
  results <> [] ->
  exists m last,
    calculateMetrics results = Normal m /\
    last_snapshot results last /\
    X_final m = X last /\
    final_removal m = removal_percent last /\
    (no_match (near_day 14) results ->
     removal_day14 m = final_removal m /\ C_G_aq_day14 m = C_G_aq last).
Proof.
  intros Hne.
  destruct (calculateMetrics_nonempty results Hne)
    as (d3 & d7 & d14 & xm & ap & lst & H3 & H7 & H14 & Hlst & Hm).
  eexists _, lst. split; [exact Hm|].
  split; [now apply index_last_last|]. simpl.
  split; [reflexivity|]. split; [reflexivity|].
  intros Hno. unfold day14_point in H14.
  rewrite (find_none_of_no_match _ _ Hno) in H14. simpl in H14.
  rewrite Hlst in H14. injection H14 as <-. now split.
Qed.

Lemma final_metrics_witness :
  emitted one_day_run 49 <> [] /\
  exists m last,
    calculateMetrics (emitted one_day_run 49) = Normal m /\
    last_snapshot (emitted one_day_run 49) last /\
    X_final m = X last /\
    final_removal m = removal_percent last /\
    (no_match (near_day 14) (emitted one_day_run 49) ->
     removal_day14 m = final_removal m /\ C_G_aq_day14 m = C_G_aq last).
Proof.
  split; [vm_compute; discriminate|].
  apply (final_metrics (emitted one_day_run 49)).
  vm_compute; discriminate.
Defined.



(** * Runs reachable from the parameter panel *)

Lemma slider_grid_reference :
  Forall (fun kt =>
            map time_h (emitted (with_horizon (snd kt)) (48 * fst kt + 2))
            = half_hour_grid (fst kt)
            /\ snd (iterate (with_horizon (snd kt)) (48 * fst kt + 2)
                      (initial_state (with_horizon (snd kt)))) = true)
    t_final_slider.
Proof.
  unfold t_final_slider. simpl map.
  repeat (apply Forall_cons; [split; vm_compute; reflexivity|]).
  apply Forall_nil.
Qed.

Lemma runSimulation_of_iterate p fuel :
  snd (iterate p fuel (initial_state p)) = true ->
  runSimulation p fuel = Some (emitted p fuel).
Proof.
  unfold runSimulation, emitted.
  destruct (iterate p fuel (initial_state p)) as [l e]. simpl. now intros ->.
Qed.

Lemma runSimulation_fuel_irrelevant p fuel fuel' r r' :
  runSimulation p fuel = Some r -> runSimulation p fuel' = Some r' -> r = r'.
Proof.
  unfold runSimulation. intros H1 H2.
  destruct (iterate p fuel (initial_state p)) as [l1 [|]] eqn:E1;
    [|discriminate].
  destruct (iterate p fuel' (initial_state p)) as [l2 [|]] eqn:E2;
    [|discriminate].
  injection H1 as <-. injection H2 as <-.
  eapply iterate_exit_unique; eassumption.
Qed.

(** A run with the default step and a horizon of the slider has the time
    stamps of the reference run with the same horizon. *)
Lemma slider_run_times k tf p fuel results :
  In (k, tf) t_final_slider ->
  dt p = 0.5 -> t_final p = tf ->
  runSimulation p fuel = Some results ->
  map time_h results = half_hour_grid k
  /\ map time_h results
     = map time_h (emitted (with_horizon tf) (48 * k + 2)).
Proof.
  intros Hin Hdt Htf Hrun.
  pose proof (proj1 (Forall_forall _ _) slider_grid_reference _ Hin)
    as [Hgrid Hexit].
  cbn [fst snd] in *.
  apply runSimulation_of_iterate in Hexit.
  destruct (run_times_transfer p (with_horizon tf) fuel results)
    as (r' & Hr' & Hm & _); auto.
  rewrite (runSimulation_fuel_irrelevant _ _ _ _ _ Hr' Hexit) in Hm.
  rewrite <- Hm. now split.
Qed.

(** X10. With the default step of 0.5 h and a horizon of [k] days taken from
    the slider, whatever the other parameters, the simulation returns after
    [48 * k + 1] passes a trajectory of exactly [48 * k + 1] snapshots whose
    time stamps are exactly [0, 0.5, 1, ..., 24 * k] hours. *)
Theorem slider_run_grid k tf p :
  In (k, tf) t_final_slider ->
  dt p = 0.5 -> t_final p = tf ->
  exists results,
    runSimulation p (48 * k + 2) = Some results
    /\ length results = (48 * k + 1)%nat
    /\ map time_h results = half_hour_grid k.
Proof.
  intros Hin Hdt Htf.
  pose proof (proj1 (Forall_forall _ _) slider_grid_reference _ Hin)
    as [Hgrid Hexit].
  cbn [fst snd] in *.
  apply runSimulation_of_iterate in Hexit.
  destruct (run_times_transfer (with_horizon tf) p (48 * k + 2) _
              (eq_sym Htf) (eq_sym Hdt) Hexit) as (r & Hr & Hm & Hl).
  exists r. split; [exact Hr|].
  rewrite Hm, Hgrid. split; [|reflexivity].
  rewrite <- (length_map time_h), Hm, Hgrid.
  unfold half_hour_grid. now rewrite length_map, length_seq.
Qed.

Lemma slider_run_grid_witness :
  In (14%nat, 336) t_final_slider /\
  dt no_biomass = 0.5 /\ t_final no_biomass = 336 /\
  exists results,
    runSimulation no_biomass (48 * 14 + 2) = Some results
    /\ length results = (48 * 14 + 1)%nat
    /\ map time_h results = half_hour_grid 14.
Proof.
  assert (H : In (14%nat, 336) t_final_slider)
    by (vm_compute; do 13 right; left; reflexivity).
  split; [exact H|]. split; [reflexivity|]. split; [reflexivity|].
  exact (slider_run_grid 14 336 no_biomass H eq_refl eq_refl).
Defined.

(** The lookups read the trajectory through [time_days] only. *)
Lemma find_near_day_times target :
  forall l l',
    map time_h l = map time_h l' ->
    map time_days l = map time_days l' ->
    option_map time_h (JS.find (near_day target) l)
    = option_map time_h (JS.find (near_day target) l').
Proof.
  unfold JS.find.
  induction l as [|a l IH]; intros [|a' l'] Hh Hd; try discriminate;
    [reflexivity|].
  simpl in Hh, Hd. injection Hh as Ha Hh. injection Hd as Hb Hd.
  simpl. unfold near_day at 1 3. rewrite Hb.
  destruct (JS.Math_abs (time_days a' - target) <? 0.1).
  - simpl. now rewrite Ha.
  - now apply IH.
Qed.

Lemma index_last_times (l l' : list Snapshot) :
  map time_h l = map time_h l' ->
  option_map time_h (JS.index_last l) = option_map time_h (JS.index_last l').
Proof.
  intros H. unfold JS.index_last.
  assert (L : length l = length l')
    by (rewrite <- (length_map time_h l), H; apply length_map).
  rewrite <- L. destruct (length l) as [|n]; [reflexivity|].
  rewrite <- !nth_error_map. now rewrite H.
Qed.

Lemma lookup_times_by_grid l l' :
  map time_h l = map time_h l' ->
  map time_days l = map time_days l' ->
  lookup_times l = lookup_times l'.
Proof.
  intros Hh Hd. unfold lookup_times, day3_point, day7_point, day14_point.
  pose proof (find_near_day_times 3 l l' Hh Hd) as F3.
  pose proof (find_near_day_times 7 l l' Hh Hd) as F7.
  pose proof (find_near_day_times 14 l l' Hh Hd) as F14.
  pose proof (index_last_times l l' Hh) as FL.
  assert (F0 : option_map time_h (JS.index l 0)
               = option_map time_h (JS.index l' 0)).
  { unfold JS.index. rewrite <- !nth_error_map. now rewrite Hh. }
  unfold JS.or_else.
  destruct (JS.find (near_day 3) l), (JS.find (near_day 3) l');
    try discriminate;
    destruct (JS.find (near_day 7) l), (JS.find (near_day 7) l');
    try discriminate;
    destruct (JS.find (near_day 14) l), (JS.find (near_day 14) l');
    try discriminate;
    simpl in *; congruence.
Qed.

Lemma emitted_time_days p fuel :
  map time_days (emitted p fuel)
  = map (fun s => time_h s / 24) (emitted p fuel).
Proof.
  apply map_ext_in. revert fuel.
  apply (emitted_invariant p (fun _ => True)); auto.
Qed.

Lemma slider_lookup_reference :
  Forall (fun kt =>
            lookup_times (emitted (with_horizon (snd kt)) (48 * fst kt + 2))
            = (Some (if (3 <=? fst kt)%nat then 70 else 0),
               Some (if (7 <=? fst kt)%nat then 166 else 0),
               Some (if (14 <=? fst kt)%nat then 334 else snd kt)))
    t_final_slider.
Proof.
  unfold t_final_slider. simpl map.
  repeat (apply Forall_cons; [vm_compute; reflexivity|]).
  apply Forall_nil.
Qed.

(** X11. With the default step of 0.5 h and a horizon of [k] days taken from
    the slider, whatever the other parameters, the day-3 metrics are those
    of the snapshot at 70 h when [k >= 3], the day-7 metrics those of the
    snapshot at 166 h when [k >= 7] and the day-14 metrics those of the
    snapshot at 334 h when [k >= 14]: the first snapshot within 0.1 day of
    the target, two hours before it.  On a shorter run the day-3 and day-7
    metrics are those of [t = 0] and the day-14 metrics those of the last
    snapshot, at [t_final]. *)
Theorem slider_lookup_times k tf p fuel results :
  In (k, tf) t_final_slider ->
  dt p = 0.5 -> t_final p = tf ->
  runSimulation p fuel = Some results ->
  exists d3 d7 d14,
    day3_point results = Some d3 /\
    day7_point results = Some d7 /\
    day14_point results = Some d14 /\
    time_h d3 = (if (3 <=? k)%nat then 70 else 0) /\
    time_h d7 = (if (7 <=? k)%nat then 166 else 0) /\
    time_h d14 = (if (14 <=? k)%nat then 334 else tf).
Proof.
  intros Hin Hdt Htf Hrun.
  destruct (slider_run_times k tf p fuel results Hin Hdt Htf Hrun)
    as [_ Hh].
  pose proof (proj1 (Forall_forall _ _) slider_lookup_reference _ Hin)
    as Href.
  cbn [fst snd] in Href.
  rewrite <- (lookup_times_by_grid results) in Href; [|exact Hh|].
  - unfold lookup_times in Href.
    destruct (day3_point results) as [d3|]; [|discriminate].
    destruct (day7_point results) as [d7|]; [|discriminate].
    destruct (day14_point results) as [d14|]; [|discriminate].
    simpl in Href. injection Href as H3 H7 H14.
    now exists d3, d7, d14.
  - apply runSimulation_emitted in Hrun. subst results.
    rewrite !emitted_time_days.
    rewrite <- !(map_map time_h (fun t => t / 24)). now rewrite Hh.
Qed.

Lemma slider_lookup_times_witness :
  In (14%nat, 336) t_final_slider /\
  dt DEFAULT_PARAMS = 0.5 /\ t_final DEFAULT_PARAMS = 336 /\
  exists results d3 d7 d14,
    runSimulation DEFAULT_PARAMS 674 = Some results /\
    day3_point results = Some d3 /\
    day7_point results = Some d7 /\
    day14_point results = Some d14 /\
    time_h d3 = 70 /\ time_h d7 = 166 /\ time_h d14 = 334.
Proof.
  assert (H : In (14%nat, 336) t_final_slider)
    by (vm_compute; do 13 right; left; reflexivity).
  split; [exact H|]. split; [reflexivity|]. split; [reflexivity|].
  assert (R : runSimulation DEFAULT_PARAMS 674
              = Some (emitted DEFAULT_PARAMS 674))
    by (vm_compute; reflexivity).
  destruct (slider_lookup_times 14 336 DEFAULT_PARAMS 674 _ H
              eq_refl eq_refl R) as (d3 & d7 & d14 & H3 & H7 & H14 & T).
  exists (emitted DEFAULT_PARAMS 674), d3, d7, d14.
  split; [exact R|]. repeat split; try assumption; apply T.
Defined.

(** * The presentation layer *)

Section Sampling.

Context {A : Type}.

Lemma filter_from_app (f : Z -> bool) (l1 l2 : list A) :
  forall i,
    UI.filter_from f i (l1 ++ l2)
    = UI.filter_from f i l1
      ++ UI.filter_from f (i + Z.of_nat (length l1)) l2.
Proof.
  induction l1 as [|a l1 IH]; intros i; simpl.
  - now rewrite Z.add_0_r.
  - rewrite IH.
    replace (i + 1 + Z.of_nat (length l1))%Z
      with (i + Z.pos (Pos.of_succ_nat (length l1)))%Z by lia.
    now destruct (f i).
Qed.

Lemma filter_from_ext (f g : Z -> bool) (l : list A) :
  forall i,
    (forall j, (i <= j < i + Z.of_nat (length l))%Z -> f j = g j) ->
    UI.filter_from f i l = UI.filter_from g i l.
Proof.
  induction l as [|a l IH]; intros i H; [reflexivity|].
  simpl. rewrite (H i) by (simpl length; lia).
  rewrite (IH (i + 1)%Z); [reflexivity|].
  intros j Hj. apply H. simpl length. lia.
Qed.

Lemma rem_phase (c q r : nat) :
  (r < c)%nat -> Z.rem (Z.of_nat (c * q + r)) (Z.of_nat c) = Z.of_nat r.
Proof.
  intros Hr. rewrite Z.rem_mod_nonneg by lia.
  symmetry. apply (Z.mod_unique_pos _ _ (Z.of_nat q)); lia.
Qed.

(** Keeping one index in [c]: when the next multiple of [c] is [d] places
    after the start, the [j]-th element kept is at place [d + c * j]. *)
Lemma every_nth (c : nat) (l : list A) :
  forall s d q j,
    (d < c)%nat -> (s + d = c * q)%nat ->
    nth_error
      (UI.filter_from (fun i => (Z.rem i (Z.of_nat c) =? 0)%Z)
         (Z.of_nat s) l) j
    = nth_error l (d + c * j).
Proof.
  induction l as [|a l IH]; intros s d q j Hd Hs.
  - now rewrite !nth_error_nil.
  - simpl UI.filter_from.
    replace (Z.of_nat s + 1)%Z with (Z.of_nat (s + 1)) by lia.
    destruct d as [|d].
    + replace s with (c * q + 0)%nat at 1 by lia.
      rewrite (rem_phase c q 0 Hd). change (Z.of_nat 0 =? 0)%Z with true.
      cbv iota. destruct j as [|j].
      * now rewrite Nat.mul_0_r.
      * simpl nth_error at 1.
        rewrite (IH (s + 1)%nat (c - 1)%nat (q + 1)%nat j) by nia.
        replace (0 + c * S j)%nat with (S (c - 1 + c * j)) by nia.
        reflexivity.
    + assert (Hq : (1 <= q)%nat) by nia.
      replace s with (c * (q - 1) + (c - S d))%nat at 1 by nia.
      rewrite (rem_phase c (q - 1) (c - S d)) by lia.
      destruct (Z.eqb_spec (Z.of_nat (c - S d)) 0) as [E|_]; [lia|].
      rewrite (IH (s + 1)%nat d q j) by lia.
      reflexivity.
Qed.

Lemma every_nth_0 (c : nat) (l : list A) j :
  (0 < c)%nat ->
  nth_error (UI.filter_index (fun i => (Z.rem i (Z.of_nat c) =? 0)%Z) l) j
  = nth_error l (c * j).
Proof.
  intros Hc. unfold UI.filter_index.
  assert (E : (0 + 0 = c * 0)%nat) by lia.
  exact (every_nth c l 0 0 0 j Hc E).
Qed.

End Sampling.

(** X12. The charts plot every fourth snapshot: the [j]-th point is
    [results[4 * j]], so [ceil(n / 4)] points for [n] snapshots; the last
    snapshot is plotted only when [n - 1] is a multiple of 4. *)
Theorem chartData_every_fourth results :
  (forall j, nth_error (UI.chartData results) j = nth_error results (4 * j))
  /\ length (UI.chartData results) = ((length results + 3) / 4)%nat.
Proof.
  assert (H : forall j,
             nth_error (UI.chartData results) j = nth_error results (4 * j)).
  { intros j. unfold UI.chartData.
    apply (every_nth_0 4 results j). lia. }
  split; [exact H|].
  set (L := length (UI.chartData results)).
  assert (Hup : (length results <= 4 * L)%nat).
  { apply nth_error_None. rewrite <- H. now apply nth_error_None. }
  assert (Hlow : (L = 0 \/ 4 * (L - 1) < length results)%nat).
  { destruct L as [|L'] eqn:E; [now left|right].
    apply nth_error_Some. rewrite <- H. apply nth_error_Some.
    fold L in E. lia. }
  fold L. apply (Nat.div_unique _ 4 L (length results + 3 - 4 * L)); lia.
Qed.

Lemma table_rows results last :
  last_snapshot results last ->
  exists rows,
    UI.displayResults results = rows ++ [last]
    /\ forall j,
         nth_error rows j
         = if (48 * j <? length results - 1)%nat
           then nth_error results (48 * j) else None.
Proof.
  intros [init ->].
  exists (UI.filter_index (fun i => (Z.rem i (Z.of_nat 48) =? 0)%Z) init).
  split.
  - unfold UI.displayResults, UI.filter_index.
    rewrite filter_from_app. f_equal.
    + apply filter_from_ext. intros j Hj.
      rewrite length_app. simpl length.
      destruct (Z.eqb_spec j (Z.of_nat (length init + 1) - 1)) as [E|_];
        [lia|].
      now rewrite orb_false_r.
    + simpl. rewrite length_app. simpl length.
      destruct (Z.eqb_spec (Z.of_nat (length init))
                  (Z.of_nat (length init + 1) - 1)) as [_|E]; [|lia].
      now rewrite orb_true_r.
  - intros j. rewrite every_nth_0 by lia.
    rewrite length_app. simpl length.
    replace (length init + 1 - 1)%nat with (length init) by lia.
    destruct (Nat.ltb_spec (48 * j) (length init)) as [Hlt|Hge].
    + now rewrite nth_error_app1.
    + now apply nth_error_None.
Qed.

(** X13. The results table shows every 48th snapshot and always ends with
    the last snapshot: for a trajectory that ends with [last], the rows are
    [results[0], results[48], ...], taken among the snapshots before the
    last one, followed by [last]. *)
Theorem displayResults_rows results last :
  last_snapshot results last ->
  exists rows,
    UI.displayResults results = rows ++ [last]
    /\ forall j,
         nth_error rows j
         = if (48 * j <? length results - 1)%nat
           then nth_error results (48 * j) else None.
Proof. apply table_rows. Qed.

Lemma displayResults_rows_witness :
  exists last rows,
    last_snapshot (emitted one_day_run 49) last /\
    UI.displayResults (emitted one_day_run 49) = rows ++ [last]
    /\ forall j,
         nth_error rows j
         = if (48 * j <? length (emitted one_day_run 49) - 1)%nat
           then nth_error (emitted one_day_run 49) (48 * j) else None.
Proof.
  assert (L : last_snapshot (emitted one_day_run 49)
                (last (emitted one_day_run 49)
                   (snapshot_of one_day_run (initial_state one_day_run)))).
  { exists (removelast (emitted one_day_run 49)). vm_compute. reflexivity. }
  destruct (displayResults_rows _ _ L) as (rows & H1 & H2).
  eexists _, rows. split; [exact L|]. split; [exact H1 | exact H2].
Defined.

Lemma emitted_time_days_In p fuel s :
  In s (emitted p fuel) -> time_days s = time_h s / 24.
Proof.
  revert fuel s. apply (emitted_invariant p (fun _ => True)); auto.
Qed.

Lemma small_days :
  Forall (fun j => float_of_nat (48 * j) / 2 / 24 = float_of_nat j)
    (seq 0 31).
Proof.
  simpl seq.
  repeat (apply Forall_cons; [vm_compute; reflexivity|]).
  apply Forall_nil.
Qed.

Lemma slider_days k tf : In (k, tf) t_final_slider -> (1 <= k <= 30)%nat.
Proof.
  unfold t_final_slider. intros H. apply in_map_iff in H as (k' & E & H).
  injection E as <- _. apply in_seq in H. lia.
Qed.

(** X14. With the default step and a horizon of [k] days taken from the
    slider, whatever the other parameters, the results table has exactly
    [k + 1] rows and row [j] is the snapshot [results[48 * j]], whose
    [time_days] is exactly [j]: one row per day, days 0 to [k]. *)
Theorem slider_table_one_row_per_day k tf p fuel results :
  In (k, tf) t_final_slider ->
  dt p = 0.5 -> t_final p = tf ->
  runSimulation p fuel = Some results ->
  length (UI.displayResults results) = (k + 1)%nat
  /\ forall j s,
       nth_error (UI.displayResults results) j = Some s ->
       nth_error results (48 * j) = Some s /\ time_days s = float_of_nat j.
Proof.
  intros Hin Hdt Htf Hrun.
  destruct (slider_run_times k tf p fuel results Hin Hdt Htf Hrun)
    as [Hgrid _].
  assert (Hlen : length results = (48 * k + 1)%nat).
  { rewrite <- (length_map time_h), Hgrid. unfold half_hour_grid.
    now rewrite length_map, length_seq. }
  pose proof (slider_days k tf Hin) as Hk.
  assert (Hne : results <> []) by (intros ->; simpl in Hlen; lia).
  destruct (exists_last Hne) as (init & lst & E).
  destruct (table_rows results lst) as (rows & Hd & Hrows);
    [now exists init|].
  assert (Hinit : length init = (48 * k)%nat).
  { rewrite E, length_app in Hlen. simpl in Hlen. lia. }
  assert (Hr : length rows = k).
  { assert (U : (length rows <= k)%nat).
    { apply nth_error_None. rewrite Hrows, Hlen.
      destruct (Nat.ltb_spec (48 * k) (48 * k + 1 - 1)); [lia|reflexivity]. }
    assert (V : (k <= length rows)%nat).
    { destruct (Nat.le_gt_cases k (length rows)) as [|Hgt]; [assumption|].
      exfalso.
      assert (Hn : nth_error rows (length rows) = None)
        by (apply nth_error_None; lia).
      rewrite Hrows, Hlen in Hn.
      destruct (Nat.ltb_spec (48 * length rows) (48 * k + 1 - 1)); [|lia].
      apply nth_error_None in Hn. lia. }
    lia. }
  assert (Hnth : forall j s,
             nth_error (UI.displayResults results) j = Some s ->
             nth_error results (48 * j) = Some s /\ (j <= k)%nat).
  { intros j s Hj. rewrite Hd in Hj.
    destruct (Nat.lt_ge_cases j (length rows)) as [Hlt|Hge].
    - rewrite nth_error_app1 in Hj by exact Hlt.
      rewrite Hrows, Hlen in Hj.
      destruct (Nat.ltb_spec (48 * j) (48 * k + 1 - 1)); [|discriminate].
      split; [exact Hj | lia].
    - rewrite nth_error_app2 in Hj by exact Hge.
      destruct (j - length rows)%nat as [|n] eqn:Ej;
        [|destruct n; discriminate].
      simpl in Hj. injection Hj as <-.
      assert (j = k) by lia. subst j. split; [|lia].
      rewrite E, nth_error_app2 by lia.
      replace (48 * k - length init)%nat with 0%nat by lia. reflexivity. }
  split.
  - rewrite Hd, length_app. simpl. lia.
  - intros j s Hj. destruct (Hnth j s Hj) as [Hs Hjk].
    split; [exact Hs|].
    assert (Ht : time_h s = float_of_nat (48 * j) / 2).
    { pose proof (map_nth_error time_h _ _ Hs) as M.
      rewrite Hgrid in M. unfold half_hour_grid in M.
      rewrite nth_error_map in M.
      rewrite (nth_error_nth' _ 0%nat) in M by (rewrite length_seq; lia).
      rewrite seq_nth in M by lia. simpl in M. now injection M as <-. }
    assert (Hd' : time_days s = time_h s / 24).
    { apply (emitted_time_days_In p fuel).
      rewrite <- (runSimulation_emitted p fuel results Hrun).
      now apply nth_error_In in Hs. }
    rewrite Hd', Ht.
    apply (proj1 (Forall_forall _ _) small_days j).
    apply in_seq. lia.
Qed.

Lemma slider_table_one_row_per_day_witness :
  In (14%nat, 336) t_final_slider /\
  dt DEFAULT_PARAMS = 0.5 /\ t_final DEFAULT_PARAMS = 336 /\
  exists results,
    runSimulation DEFAULT_PARAMS 674 = Some results /\
    length (UI.displayResults results) = (14 + 1)%nat
    /\ forall j s,
         nth_error (UI.displayResults results) j = Some s ->
         nth_error results (48 * j) = Some s
         /\ time_days s = float_of_nat j.
Proof.
  assert (H : In (14%nat, 336) t_final_slider)
    by (vm_compute; do 13 right; left; reflexivity).
  split; [exact H|]. split; [reflexivity|]. split; [reflexivity|].
  assert (R : runSimulation DEFAULT_PARAMS 674
              = Some (emitted DEFAULT_PARAMS 674))
    by (vm_compute; reflexivity).
  exists (emitted DEFAULT_PARAMS 674). split; [exact R|].
  exact (slider_table_one_row_per_day 14 336 DEFAULT_PARAMS 674 _ H
           eq_refl eq_refl R).
Defined.

Lemma playback_iter n k :
  (1 <= n)%nat ->
  Nat.iter k (UI.tick n) UI.started
  = {| UI.currentTimeIndex := 2 * Z.of_nat (Nat.min k (n / 2));
       UI.isPlaying := (k <=? n / 2)%nat |}.
Proof.
  intros Hn.
  assert (Hlo : (2 * (n / 2) <= n)%nat) by (apply Nat.Div0.mul_div_le).
  assert (Hhi : (n < 2 * (n / 2) + 2)%nat).
  { pose proof (Nat.mul_succ_div_gt n 2). lia. }
  induction k as [|k IH]; [reflexivity|].
  rewrite Nat.iter_succ, IH. unfold UI.tick.
  cbn [UI.isPlaying UI.currentTimeIndex].
  destruct (Nat.eqb_spec n 0) as [E|_]; [lia|].
  destruct (Nat.leb_spec k (n / 2)) as [Hk|Hk]; cbn [negb orb].
  - rewrite (Nat.min_l k) by exact Hk.
    destruct (Z.geb_spec (2 * Z.of_nat k) (Z.of_nat n - 1)) as [G|G].
    + assert (k = (n / 2)%nat) by lia. subst k.
      rewrite Nat.min_r by lia.
      destruct (Nat.leb_spec (S (n / 2)) (n / 2)); [lia|reflexivity].
    + rewrite Nat.min_l by lia.
      destruct (Nat.leb_spec (S k) (n / 2)); [|lia].
      f_equal. lia.
  - rewrite !Nat.min_r by lia.
    destruct (Nat.leb_spec (S k) (n / 2)); [lia|reflexivity].
Qed.

(** X15. Playback after [handleSimulate] on a trajectory of [n >= 1]
    snapshots: after [k] timer periods the index is [2 * min(k, n / 2)] and
    the playback is still running exactly when [k <= n / 2].  The index
    visits the even numbers only and comes to rest at [2 * (n / 2)], which
    is [n - 1] for an odd [n] and [n], one past the last snapshot, for an
    even [n]. *)
Theorem playback_closed_form n k :
  (1 <= n)%nat ->
  Nat.iter k (UI.tick n) UI.started
  = {| UI.currentTimeIndex := 2 * Z.of_nat (Nat.min k (n / 2));
       UI.isPlaying := (k <=? n / 2)%nat |}.
Proof. apply playback_iter. Qed.

Lemma playback_closed_form_witness :
  (1 <= 673)%nat /\
  Nat.iter 400 (UI.tick 673) UI.started
  = {| UI.currentTimeIndex := 2 * Z.of_nat (Nat.min 400 (673 / 2));
       UI.isPlaying := (400 <=? 673 / 2)%nat |}.
Proof.
  split; [lia|]. apply (playback_closed_form 673 400). lia.
Defined.

(** X16. What the page shows when the playback has come to rest.  On a
    trajectory with an odd number of snapshots it shows the last snapshot;
    on one with an even number the index is out of range and the page shows
    the placeholder of the initial conditions: day 0, 0 % removal and the
    initial concentrations. *)
Theorem playback_rest_display params results last :
  last_snapshot results last ->
  let n := length results in
  let rest := Nat.iter (n / 2 + 1) (UI.tick n) UI.started in
  UI.isPlaying rest = false
  /\ UI.tick n rest = rest
  /\ UI.currentData params results (UI.currentTimeIndex rest)
     = if Nat.odd n then UI.shown_of last
       else {| UI.shown_C_G_aq := C_G_aq_0 params;
               UI.shown_C_G_s := 0;
               UI.shown_C_A_aq := 0;
               UI.shown_X := X_0 params;
               UI.shown_time_days := 0;
               UI.shown_removal_percent := 0 |}.
Proof.
  intros [init ->]. cbv zeta.
  set (n := length (init ++ [last])).
  assert (Hn : n = (length init + 1)%nat)
    by (unfold n; rewrite length_app; reflexivity).
  rewrite (playback_iter n (n / 2 + 1)) by lia.
  rewrite Nat.min_r by lia.
  destruct (Nat.leb_spec (n / 2 + 1) (n / 2)) as [|_]; [lia|].
  split; [reflexivity|]. split; [reflexivity|].
  cbn [UI.currentTimeIndex]. unfold UI.currentData, UI.index_Z.
  destruct (Z.ltb_spec (2 * Z.of_nat (n / 2)) 0) as [|_]; [lia|].
  replace (Z.to_nat (2 * Z.of_nat (n / 2))) with (2 * (n / 2))%nat by lia.
  assert (Hlo : (2 * (n / 2) <= n)%nat) by (apply Nat.Div0.mul_div_le).
  assert (Hhi : (n < 2 * (n / 2) + 2)%nat).
  { pose proof (Nat.mul_succ_div_gt n 2). lia. }
  destruct (Nat.odd n) eqn:Hodd.
  - apply Nat.odd_spec in Hodd as [m Hm].
    replace (2 * (n / 2))%nat with (length init) by lia.
    rewrite nth_error_app2 by apply Nat.le_refl. now rewrite Nat.sub_diag.
  - assert (Heven : Nat.even n = true)
      by (rewrite <- Nat.negb_odd, Hodd; reflexivity).
    apply Nat.even_spec in Heven as [m Hm].
    replace (nth_error (init ++ [last]) (2 * (n / 2))) with (@None Snapshot);
      [reflexivity|].
    symmetry. apply nth_error_None. fold n. lia.
Qed.

Lemma playback_rest_display_witness :
  exists last,
    last_snapshot (emitted one_day_run 49) last /\
    UI.isPlaying (Nat.iter (49 / 2 + 1) (UI.tick 49) UI.started) = false /\
    UI.currentData one_day_run (emitted one_day_run 49)
      (UI.currentTimeIndex (Nat.iter (49 / 2 + 1) (UI.tick 49) UI.started))
    = UI.shown_of last.
Proof.
  assert (L : last_snapshot (emitted one_day_run 49)
                (last (emitted one_day_run 49)
                   (snapshot_of one_day_run (initial_state one_day_run)))).
  { exists (removelast (emitted one_day_run 49)). vm_compute. reflexivity. }
  eexists. split; [exact L|].
  destruct (playback_rest_display one_day_run _ _ L) as (H1 & _ & H3).
  split; [exact H1 | exact H3].
Defined.

(** X17. The aeration bubbles: whatever the previous list and the random
    draws, the updated list has at most 30 bubbles, each below [y = 2], and
    each bubble is either an old one raised by 0.05 or the new bubble, which
    enters at [y = -2] and only when the draw exceeds 0.7. *)
Theorem bubbles_bounded d prev :
  (length (UI.update_bubbles d prev) <= 30)%nat
  /\ forall b, In b (UI.update_bubbles d prev) ->
       (UI.b_y b <? 2) = true
       /\ ((exists b0, In b0 prev /\ b = UI.rise b0)
           \/ (JS.gt (UI.rnd_test d) 0.7 = true /\ b = UI.new_bubble d)).
Proof.
  unfold UI.update_bubbles, UI.slice_last.
  set (kept := filter (fun b => UI.b_y b <? 2) (map UI.rise prev)).
  set (l := if JS.gt (UI.rnd_test d) 0.7 then kept ++ [UI.new_bubble d]
            else kept).
  split; [rewrite length_skipn; lia|].
  intros b Hb.
  assert (Hl : In b l).
  { rewrite <- (firstn_skipn (length l - 30) l). apply in_or_app. now right. }
  assert (Hk : forall b', In b' kept ->
                 (UI.b_y b' <? 2) = true
                 /\ exists b0, In b0 prev /\ b' = UI.rise b0).
  { intros b' Hb'. unfold kept in Hb'. apply filter_In in Hb' as [Hm Hy].
    split; [exact Hy|]. apply in_map_iff in Hm as (b0 & <- & H0).
    now exists b0. }
  unfold l in Hl. destruct (JS.gt (UI.rnd_test d) 0.7).
  - apply in_app_or in Hl as [Hl|[<-|[]]].
    + destruct (Hk b Hl) as [Hy Hex]. split; [exact Hy | now left].
    + split; [reflexivity | now right].
  - destruct (Hk b Hl) as [Hy Hex]. split; [exact Hy | now left].
Qed.

Lemma bubbles_bounded_witness :
  exists b,
    In b (UI.update_bubbles
            {| UI.rnd_test := 0.9; UI.now := 1000; UI.rnd_x := 0.25;
               UI.rnd_z := 0.75; UI.rnd_size := 0.5 |} []) /\
    (UI.b_y b <? 2) = true.
Proof.
  eexists. 
  assert (H : In (UI.new_bubble
                    {| UI.rnd_test := 0.9; UI.now := 1000; UI.rnd_x := 0.25;
                       UI.rnd_z := 0.75; UI.rnd_size := 0.5 |})
                (UI.update_bubbles
                   {| UI.rnd_test := 0.9; UI.now := 1000; UI.rnd_x := 0.25;
                      UI.rnd_z := 0.75; UI.rnd_size := 0.5 |} []))
    by (left; reflexivity).
  split; [exact H|].
  exact (proj1 (proj2 (bubbles_bounded _ _) _ H)).
Defined.

(** * The CSV export *)

Lemma count_append c s1 s2 :
  CSV.count c (String.append s1 s2) = (CSV.count c s1 + CSV.count c s2)%nat.
Proof.
  induction s1 as [|a s1 IH]; simpl; [reflexivity|]. rewrite IH. lia.
Qed.

Lemma count_join c sep l :
  CSV.count c (CSV.join sep l)
  = (list_sum (map (CSV.count c) l)
     + (length l - 1) * CSV.count c sep)%nat.
Proof.
  unfold CSV.join. induction l as [|a l IH]; [reflexivity|].
  destruct l as [|b l].
  - simpl. lia.
  - change (String.concat sep (a :: b :: l))
      with (String.append a (String.append sep (String.concat sep (b :: l)))).
    rewrite !count_append, IH. simpl length. simpl map. simpl list_sum. lia.
Qed.

Lemma list_sum_const {A : Type} (f : A -> nat) (c : nat) (l : list A) :
  (forall x, f x = c) -> list_sum (map f l) = (c * length l)%nat.
Proof.
  intros H. induction l as [|a l IH]; simpl; [lia|]. rewrite H, IH. lia.
Qed.

Lemma list_sum_cons (a : nat) (l : list nat) :
  list_sum (a :: l) = (a + list_sum l)%nat.
Proof. reflexivity. Qed.

(** X18. The CSV export produces nothing for an empty trajectory.
    Otherwise, provided the formatted numbers contain neither a comma nor a
    line feed (as those of [toFixed] do), the text has one header line and
    one line per snapshot, that is as many line feeds as snapshots, and
    seven fields, that is six commas, on every line. *)
Theorem exportToCSV_shape toFixed results :
  (forall x d, CSV.count CSV.comma_char (toFixed x d) = 0%nat
               /\ CSV.count CSV.newline_char (toFixed x d) = 0%nat) ->
  CSV.exportToCSV toFixed [] = None
  /\ (results <> [] ->
      exists content,
        CSV.exportToCSV toFixed results = Some content
        /\ CSV.count CSV.newline_char content = length results
        /\ CSV.count CSV.comma_char content = (6 * (length results + 1))%nat).
Proof.
  intros Hfix. split; [reflexivity|]. intros Hne.
  exists (CSV.csvContent toFixed results). split.
  - unfold CSV.exportToCSV. destruct results; [congruence|reflexivity].
  - assert (Hrow : forall r,
               CSV.count CSV.comma_char (CSV.join CSV.comma (CSV.row toFixed r))
               = 6%nat
               /\ CSV.count CSV.newline_char
                    (CSV.join CSV.comma (CSV.row toFixed r)) = 0%nat).
    { intros r. rewrite !count_join. unfold CSV.row.
      cbn [map list_sum length].
      rewrite !(proj1 (Hfix _ _)), !(proj2 (Hfix _ _)). split; reflexivity. }
    unfold CSV.csvContent. rewrite !count_join.
    cbn [map list_sum length]. rewrite !length_map, !map_map.
    change (CSV.count CSV.newline_char (CSV.join CSV.comma CSV.headers))
      with 0%nat.
    change (CSV.count CSV.comma_char (CSV.join CSV.comma CSV.headers))
      with 6%nat.
    change (CSV.count CSV.newline_char CSV.newline) with 1%nat.
    change (CSV.count CSV.comma_char CSV.newline) with 0%nat.
    split.
    + rewrite list_sum_cons, (list_sum_const _ 0%nat)
        by (intros r; apply Hrow). lia.
    + rewrite list_sum_cons, (list_sum_const _ 6%nat)
        by (intros r; apply Hrow). lia.
Qed.

Lemma exportToCSV_shape_witness :
  (forall (x : float) (d : nat),
     CSV.count CSV.comma_char String.EmptyString = 0%nat
     /\ CSV.count CSV.newline_char String.EmptyString = 0%nat) /\
  emitted one_day_run 3 <> [] /\
  exists content,
    CSV.exportToCSV (fun _ _ => String.EmptyString) (emitted one_day_run 3)
    = Some content
    /\ CSV.count CSV.newline_char content = length (emitted one_day_run 3)
    /\ CSV.count CSV.comma_char content
       = (6 * (length (emitted one_day_run 3) + 1))%nat.
Proof.
  assert (H : forall (x : float) (d : nat),
             CSV.count CSV.comma_char String.EmptyString = 0%nat
             /\ CSV.count CSV.newline_char String.EmptyString = 0%nat)
    by (intros; split; reflexivity).
  assert (Hne : emitted one_day_run 3 <> []) by (vm_compute; discriminate).
  split; [exact H|]. split; [exact Hne|].
  exact (proj2 (exportToCSV_shape (fun _ _ => String.EmptyString)
                  (emitted one_day_run 3) H) Hne).
Defined.
